(** * TopoToLake: the two script tools [IsoClass.py] and [CreateLakePolygons.py]

    A shallow embedding of the Python code of the two tools and the
    properties of their naming helpers, of the tracking table written by the
    first tool and of the record loop of the second one.

    Conventions of the embedding.
    - A Python [str] is a [string]; a character is one of the first 256 code
      points, so that [\d] is the ten ASCII digits and [str.isspace] is the
      white space of that range.
    - A Python [int] is a [Z]; a [float] is a binary64 [float].
    - A statement that can raise returns a [result]; [try]/[except] is
      [try_except].
    - Calls into [arcpy] are parameters of the sections that use them and may
      raise [ExecuteError]. *)

From Stdlib Require Import ZArith Ascii String List Lia DecimalString.
From Stdlib Require Import Floats.
From stdpp Require Import base option list gmap strings.

Local Open Scope Z_scope.

(** ** Exceptions and results *)

Inductive exn : Type :=
| ValueError
| IndexError
| ExecuteError.

Inductive result (A : Type) : Type :=
| Ok (a : A)
| Raise (e : exn).

Arguments Ok {A} a.
Arguments Raise {A} e.

#[global] Instance result_ret : MRet result := fun _ a => Ok a.

#[global] Instance result_bind : MBind result := fun _ _ f m =>
  match m with
  | Ok a => f a
  | Raise e => Raise e
  end.

#[global] Instance result_fmap : FMap result := fun _ _ f m =>
  match m with
  | Ok a => Ok (f a)
  | Raise e => Raise e
  end.

(** [try: body except: handler], with a bare [except] that catches every
    exception. *)
Definition try_except {A} (body handler : result A) : result A :=
  match body with
  | Ok a => Ok a
  | Raise _ => handler
  end.

(** ** Python built-ins on strings and lists *)

Module Py.

Definition underscore : ascii := "_"%char.

(** [re]'s [\d] on the first 256 code points. *)
Definition is_digit (c : ascii) : bool :=
  let n := N_of_ascii c in ((48 <=? n) && (n <=? 57))%N.

(** [str.isspace] for one character of the first 256 code points. *)
Definition is_space (c : ascii) : bool :=
  let n := N_of_ascii c in
  (((9 <=? n) && (n <=? 13)) || ((28 <=? n) && (n <=? 32))
   || (n =? 133) || (n =? 160))%N.

(** [s.split(sep)] for a separator of one character. *)
Fixpoint split (sep : ascii) (s : string) : list string :=
  match s with
  | EmptyString => [EmptyString]
  | String c s' =>
      if Ascii.eqb c sep then EmptyString :: split sep s'
      else match split sep s' with
           | [] => [String c EmptyString]
           | p :: ps => String c p :: ps
           end
  end.

(** [sep.join(l)]. *)
Fixpoint join (sep : string) (l : list string) : string :=
  match l with
  | [] => EmptyString
  | [p] => p
  | p :: ps => p +:+ sep +:+ join sep ps
  end.

(** [l.index(x)]: the first position of [x], [ValueError] when absent. *)
Fixpoint index (x : string) (l : list string) : result nat :=
  match l with
  | [] => Raise ValueError
  | y :: l' => if String.eqb y x then Ok 0%nat else S <$> index x l'
  end.

(** [l[:stop]], with Python's treatment of a negative [stop]. *)
Definition slice_to {A} (stop : Z) (l : list A) : list A :=
  if stop <? 0 then take (Z.to_nat (Z.max 0 (Z.of_nat (length l) + stop))) l
  else take (Z.to_nat stop) l.

(** [l[i]] for [i >= 0], [IndexError] out of range. *)
Definition getitem {A} (i : nat) (l : list A) : result A :=
  match l !! i with
  | Some a => Ok a
  | None => Raise IndexError
  end.

(** The last occurrence of [sep] in [s]: what is before and after it. *)
Fixpoint rpartition (sep : ascii) (s : string) : option (string * string) :=
  match s with
  | EmptyString => None
  | String c s' =>
      match rpartition sep s' with
      | Some (h, t) => Some (String c h, t)
      | None => if Ascii.eqb c sep then Some (EmptyString, s') else None
      end
  end.

(** [s.rsplit(sep, 1)]. *)
Definition rsplit1 (sep : ascii) (s : string) : list string :=
  match rpartition sep s with
  | Some (h, t) => [h; t]
  | None => [s]
  end.

Fixpoint lstrip_by (f : ascii -> bool) (s : string) : string :=
  match s with
  | EmptyString => EmptyString
  | String c s' => if f c then lstrip_by f s' else s
  end.

Fixpoint rstrip_by (f : ascii -> bool) (s : string) : string :=
  match s with
  | EmptyString => EmptyString
  | String c s' =>
      match rstrip_by f s' with
      | EmptyString => if f c then EmptyString else String c EmptyString
      | r => String c r
      end
  end.

(** [s.strip()]. *)
Definition strip (s : string) : string :=
  rstrip_by is_space (lstrip_by is_space s).

(** The white space [int] skips around a number: that of C's [isspace]
    and, of the code points above 127, the two Unicode spaces. *)
Definition is_int_space (c : ascii) : bool :=
  let n := N_of_ascii c in
  (((9 <=? n) && (n <=? 13)) || (n =? 32) || (n =? 133) || (n =? 160))%N.

Definition digit_value (c : ascii) : Z := Z.of_N (N_of_ascii c) - 48.

(** Decimal digits with single underscores between them; [prev] tells
    whether the character before was a digit. *)
Fixpoint digits (s : string) (acc : Z) (prev : bool) : option Z :=
  match s with
  | EmptyString => if prev then Some acc else None
  | String c s' =>
      if is_digit c then digits s' (10 * acc + digit_value c) true
      else if Ascii.eqb c underscore && prev then digits s' acc false
      else None
  end.

(** [int(s)] for a [str]: optional white space, an optional sign, digits,
    optional white space; [ValueError] otherwise. The limit that recent
    interpreters put on the number of digits is not modelled. *)
Definition int (s : string) : result Z :=
  let s1 := lstrip_by is_int_space s in
  let '(neg, s2) :=
    match s1 with
    | String "+"%char r => (false, r)
    | String "-"%char r => (true, r)
    | _ => (false, s1)
    end in
  match digits (rstrip_by is_int_space s2) 0 false with
  | Some n => Ok (if neg then - n else n)
  | None => Raise ValueError
  end.

(** [str(n)] and [f"{n}"] for an [int]. *)
Definition str_of_int (n : Z) : string := NilZero.string_of_int (Z.to_int n).

Definition str_of_nat (n : nat) : string := str_of_int (Z.of_nat n).

(** [re.fullmatch(r"\d{4}", p)] as a truth value. *)
Definition fullmatch_d4 (p : string) : bool :=
  match p with
  | String a (String b (String c (String d EmptyString))) =>
      is_digit a && is_digit b && is_digit c && is_digit d
  | _ => false
  end.

(** [next((p for p in l if f(p)), dflt)]. *)
Definition next_or {A} (f : A -> bool) (l : list A) (dflt : A) : A :=
  default dflt (List.find f l).

End Py.

(** ** The naming helpers *)

(** [IsoClass.py], [extract_location_year]. *)
Definition extract_location_year (raster_name : string) : result string :=
  let parts := Py.split Py.underscore raster_name in
  let year := Py.next_or Py.fullmatch_d4 parts "unknown" in
  location ← try_except
    (year_index ← Py.index year parts;
     let location_parts := Py.slice_to (Z.of_nat year_index - 1) parts in
     mret (Py.join "_" location_parts))
    (mret "UnknownLoc");
  mret (location +:+ "_" +:+ year).

(** [CreateLakePolygons.py], [raster_to_lake_name]. *)
Definition raster_to_lake_name (raster_name : string) : result string :=
  base ← Py.getitem 0 (Py.rsplit1 Py.underscore raster_name);
  mret (base +:+ "_Lakes").

(** ** The [csv] module's writer, default dialect

    Delimiter [,], quote character code 34, doubled quotes, minimal quoting,
    line terminator CR LF. *)

Module Csv.

Definition quotechar : ascii := ascii_of_nat 34.
Definition lineterminator : string :=
  String (ascii_of_nat 13) (String (ascii_of_nat 10) EmptyString).

Definition is_special (c : ascii) : bool :=
  Ascii.eqb c ","%char || Ascii.eqb c quotechar
  || Ascii.eqb c (ascii_of_nat 13) || Ascii.eqb c (ascii_of_nat 10).

Fixpoint needs_quotes (s : string) : bool :=
  match s with
  | EmptyString => false
  | String c s' => is_special c || needs_quotes s'
  end.

Fixpoint double_quotes (s : string) : string :=
  match s with
  | EmptyString => EmptyString
  | String c s' =>
      if Ascii.eqb c quotechar then String c (String c (double_quotes s'))
      else String c (double_quotes s')
  end.

(** One field of a record; [alone] tells that it is the record's only
    field, in which case an empty field is quoted. *)
Definition field (alone : bool) (s : string) : string :=
  if needs_quotes s || (alone && String.eqb s EmptyString)
  then String quotechar (double_quotes s +:+ String quotechar EmptyString)
  else s.

(** The text [writer.writerow(fields)] writes. *)
Definition writerow (fields : list string) : string :=
  let alone := Nat.eqb (length fields) 1 in
  Py.join "," (field alone <$> fields) +:+ lineterminator.

End Csv.

(** ** The world the scripts run in, and the geoprocessing backend *)

Inductive event : Type :=
| Message (s : string)     (* arcpy.AddMessage *)
| Warning (s : string).    (* arcpy.AddWarning *)

(** What [arcpy.sa.RemapValue] maps an old value to. *)
Inductive new_value : Type :=
| NewValue (v : Z)
| NODATA.

(** The geoprocessing operations and the platform's path functions. The
    raster and vector operations are given by what they compute; where a
    dataset is read from and written to is the scripts' business. *)
Class Backend : Type := {
  Raster : Type;
  Polygon : Type;
  os_path_join : string -> string -> string;
  os_path_splitext : string -> string * string;
  ValidateTableName : string -> string -> string;
  (* arcpy.management.Resample(in, out, cell_size, resampling_type) *)
  Resample : Raster -> string -> string -> result Raster;
  (* arcpy.sa.IsoClusterUnsupervisedClassification(in, classes, min_size, interval) *)
  IsoClusterUnsupervisedClassification : Raster -> Z -> Z -> Z -> result Raster;
  (* the rows of the Value field that arcpy.da.SearchCursor yields *)
  SearchCursor_Value : Raster -> list Z;
  (* arcpy.sa.Reclassify(in, "Value", RemapValue(remap)) *)
  Reclassify : Raster -> list (Z * new_value) -> result Raster;
  (* arcpy.sa.MajorityFilter(in, number_neighbors, majority_definition) *)
  MajorityFilter : Raster -> string -> string -> result Raster;
  (* arcpy.sa.Fill(in) *)
  Fill : Raster -> result Raster;
  (* arcpy.conversion.RasterToPolygon(in, out, simplify, raster_field) *)
  RasterToPolygon : Raster -> string -> string -> result (list Polygon);
  (* arcpy.analysis.Clip(in, clip_features, out) *)
  Clip : list Polygon -> list Polygon -> result (list Polygon);
  (* the AREA_GEODESIC geometry property, in square metres *)
  area_geodesic : Polygon -> float;
}.

(** A feature of a polygon feature class: its shape and its [poly_area]
    field, which is null until it is calculated. *)
Record Feature `{Backend} : Type := {
  shape : Polygon;
  poly_area : option float;
}.

Record world `{Backend} : Type := {
  files : gmap string string;             (* text files, by path *)
  rasters : gmap string Raster;           (* raster datasets, by path *)
  feature_classes : gmap string (list Feature);
  layers : gmap string (list Feature);    (* feature layers: what a tool run on them sees *)
  log : list event;
}.

(** ** Scripts: state and exceptions

    A script step maps a world to a result and the world it leaves; when a
    step raises, the steps after it do not run and the world stays as the
    steps before left it. *)

Definition script `{Backend} (A : Type) : Type := world -> result A * world.

#[global] Instance script_ret `{Backend} : MRet script := fun _ a w => (Ok a, w).

#[global] Instance script_bind `{Backend} : MBind script := fun _ _ f m w =>
  match m w with
  | (Ok a, w') => f a w'
  | (Raise e, w') => (Raise e, w')
  end.

Section Steps.
Context `{Backend}.

Definition lift {A} (r : result A) : script A := fun w => (r, w).

Definition set_files (f : gmap string string) (w : world) : world :=
  {| files := f; rasters := rasters w; feature_classes := feature_classes w;
     layers := layers w; log := log w |}.

Definition set_rasters (r : gmap string Raster) (w : world) : world :=
  {| files := files w; rasters := r; feature_classes := feature_classes w;
     layers := layers w; log := log w |}.

Definition set_feature_classes (f : gmap string (list Feature)) (w : world) : world :=
  {| files := files w; rasters := rasters w; feature_classes := f;
     layers := layers w; log := log w |}.

Definition set_layers (l : gmap string (list Feature)) (w : world) : world :=
  {| files := files w; rasters := rasters w; feature_classes := feature_classes w;
     layers := l; log := log w |}.

Definition emit (e : event) : script unit := fun w =>
  (Ok tt, {| files := files w; rasters := rasters w;
             feature_classes := feature_classes w; layers := layers w;
             log := log w ++ [e] |}).

Definition AddMessage (s : string) : script unit := emit (Message s).
Definition AddWarning (s : string) : script unit := emit (Warning s).

(** [os.path.exists(path)] *)
Definition path_exists (path : string) : script bool := fun w =>
  (Ok (bool_decide (is_Some (files w !! path))), w).

(** [with open(path, "w", newline="") as f: csv.writer(f).writerow(fields)] *)
Definition write_row (path : string) (fields : list string) : script unit :=
  fun w => (Ok tt, set_files (<[path := Csv.writerow fields]> (files w)) w).

(** [with open(path, "a", newline="") as f: csv.writer(f).writerow(fields)] *)
Definition append_row (path : string) (fields : list string) : script unit :=
  fun w =>
    let old := default EmptyString (files w !! path) in
    (Ok tt, set_files (<[path := old +:+ Csv.writerow fields]> (files w)) w).

(** Opening a raster dataset; the backend fails on a missing one. *)
Definition read_raster (path : string) : script Raster := fun w =>
  match rasters w !! path with
  | Some r => (Ok r, w)
  | None => (Raise ExecuteError, w)
  end.

Definition save_raster (path : string) (r : Raster) : script unit := fun w =>
  (Ok tt, set_rasters (<[path := r]> (rasters w)) w).

Definition read_features (path : string) : script (list Feature) := fun w =>
  match feature_classes w !! path with
  | Some fs => (Ok fs, w)
  | None => (Raise ExecuteError, w)
  end.

Definition save_features (path : string) (fs : list Feature) : script unit :=
  fun w => (Ok tt, set_feature_classes (<[path := fs]> (feature_classes w)) w).

Definition read_layer (name : string) : script (list Feature) := fun w =>
  match layers w !! name with
  | Some fs => (Ok fs, w)
  | None => (Raise ExecuteError, w)
  end.

Definition save_layer (name : string) (fs : list Feature) : script unit :=
  fun w => (Ok tt, set_layers (<[name := fs]> (layers w)) w).

End Steps.

(** ** [IsoClass.py]: resample and classify every raster, keep the tracking table *)

Section IsoClass.
Context `{Backend}.

Section Loop.
Variables (input_gdb cell_size : string).
Variables (num_classes min_size sample_interval : Z).
Variables (output_gdb csv_path : string).

Definition iso_output_name_of (short_name : string) : string :=
  short_name +:+ "_" +:+ Py.str_of_int num_classes +:+ "class".

(** The body of the loop over the rasters. *)
Definition IsoClass_raster (idx total : nat) (raster : string) : script unit :=
  short_name ← lift (extract_location_year raster);
  let resampled_name := short_name +:+ "_" +:+ cell_size +:+ "m" in
  let iso_output_name := iso_output_name_of short_name in
  let resampled_path := "in_memory/" +:+ resampled_name in
  let iso_output_path := os_path_join output_gdb iso_output_name in
  AddMessage ("Processing " +:+ Py.str_of_nat idx +:+ " of "
              +:+ Py.str_of_nat total +:+ ": " +:+ raster);;
  (* RESAMPLE *)
  source ← read_raster (os_path_join input_gdb raster);
  resampled ← lift (Resample source cell_size "NEAREST");
  save_raster resampled_path resampled;;
  AddMessage ("--> Resampled raster to " +:+ cell_size +:+ " meters: "
              +:+ resampled_name);;
  (* ISO CLUSTER UNSUPERVISED CLASSIFICATION *)
  resampled ← read_raster resampled_path;
  iso_result ← lift (IsoClusterUnsupervisedClassification
                       resampled num_classes min_size sample_interval);
  save_raster iso_output_path iso_result;;
  (* write output raster name to csv *)
  append_row csv_path [iso_output_name; ""];;
  AddMessage ("--> Saved classified raster: " +:+ iso_output_name).

(** [for idx, raster in enumerate(rasters, start = idx)] *)
Fixpoint IsoClass_loop (idx total : nat) (rasters : list string) : script unit :=
  match rasters with
  | [] => mret tt
  | raster :: rest =>
      IsoClass_raster idx total raster;;
      IsoClass_loop (S idx) total rest
  end.

End Loop.

(** The script, given the texts of the tool's parameters and the list
    [arcpy.ListRasters()] returns. *)
Definition IsoClass (GetParameterAsText : nat -> string)
    (ListRasters : list string) : script unit :=
  let input_gdb := GetParameterAsText 0%nat in
  let cell_size := GetParameterAsText 1%nat in
  num_classes ← lift (Py.int (GetParameterAsText 2%nat));
  min_size ← lift (Py.int (GetParameterAsText 3%nat));
  sample_interval ← lift (Py.int (GetParameterAsText 4%nat));
  let output_gdb := GetParameterAsText 5%nat in
  let project_folder := GetParameterAsText 6%nat in
  (* create csv for tracking classified outputs *)
  let csv_path := os_path_join project_folder "classified_rasters.csv" in
  present ← path_exists csv_path;
  (if negb present
   then write_row csv_path ["classified_raster"; "water_class"]
   else mret tt);;
  let rasters := ListRasters in
  let total := length rasters in
  IsoClass_loop input_gdb cell_size num_classes min_size sample_interval
    output_gdb csv_path 1 total rasters.

End IsoClass.

(** ** [CreateLakePolygons.py]: polygons of the water class of every record *)

(** A row of the tracking table as [csv.DictReader] yields it, for a table
    whose lines have their two fields. *)
Record row : Type := {
  classified_raster : string;
  water_class : string;
}.

Section CreateLakePolygons.
Context `{Backend}.
Variables (input_gdb csv_file coastline : string).
Variable (area_threshold : float).
Variable (output_gdb : string).

Definition new_feature (p : Polygon) : Feature :=
  {| shape := p; poly_area := None |}.

Definition with_area (a : option float) (f : Feature) : Feature :=
  {| shape := shape f; poly_area := a |}.

(** The where clause [poly_area > {area_threshold}]; a null is not selected. *)
Definition area_clause (f : Feature) : bool :=
  match poly_area f with
  | Some a => PrimFloat.ltb area_threshold a
  | None => false
  end.

(** [set()] filled from the cursor. *)
Definition class_values_of (values : list Z) : gset Z := list_to_set values.

(** [non_water] and [remap] of step 1. *)
Definition non_water_of (water_class : Z) (class_values : gset Z) : list Z :=
  filter (fun val => val ≠ water_class) (elements class_values).

Definition remap_of (water_class : Z) (class_values : gset Z) : list (Z * new_value) :=
  (water_class, NewValue 1)
  :: ((fun val => (val, NewValue 0)) <$> non_water_of water_class class_values).

(** Step 7 on the clipped polygons: the layer, the area field, its
    values and the selection. *)
Definition area_filter (clipped_polygons : string) : script unit :=
  (* MakeFeatureLayer *)
  fs ← read_features clipped_polygons;
  save_layer "temp_lyr" fs;;
  (* AddField *)
  fs ← read_layer "temp_lyr";
  save_layer "temp_lyr" (with_area None <$> fs);;
  (* CalculateGeometryAttributes *)
  fs ← read_layer "temp_lyr";
  save_layer "temp_lyr"
    ((fun f => with_area (Some (area_geodesic (shape f))) f) <$> fs);;
  (* SelectLayerByAttribute, NEW_SELECTION *)
  fs ← read_layer "temp_lyr";
  save_layer "temp_lyr" (filter (fun f => area_clause f = true) fs).

Definition final_output_of (output_name : string) : string :=
  os_path_join output_gdb (ValidateTableName output_name output_gdb).

(** Step 8: [CopyFeatures] of the layer, which copies what is selected. *)
Definition save_output (output_name : string) : script unit :=
  let final_output := final_output_of output_name in
  fs ← read_layer "temp_lyr";
  save_features final_output fs.

(** Steps 1 to 8 for a record whose water class is given. *)
Definition lake_polygons (idx total : nat) (raster_name : string)
    (water_class : Z) (output_name : string) : script unit :=
  let full_raster_path := os_path_join input_gdb raster_name in
  let base_name := fst (os_path_splitext raster_name) in
  let polygons := "in_memory/" +:+ base_name +:+ "_poly" in
  let clipped_polygons := "in_memory/" +:+ base_name +:+ "_clipped" in
  AddMessage ("Processing " +:+ Py.str_of_nat idx +:+ " of "
              +:+ Py.str_of_nat total +:+ ": " +:+ raster_name);;
  (* 1. Reclassify water vs non-water *)
  source ← read_raster full_raster_path;
  let class_values := class_values_of (SearchCursor_Value source) in
  let remap := remap_of water_class class_values in
  reclass ← lift (Reclassify source remap);
  (* 2. Majority Filter *)
  majority ← lift (MajorityFilter reclass "EIGHT" "HALF");
  (* 3. Fill *)
  filled ← lift (Fill majority);
  (* 4. Final reclass to remove 0s *)
  lake_raster ← lift (Reclassify filled [(0, NODATA); (1, NewValue 1)]);
  (* 5. Raster to Polygon *)
  shapes ← lift (RasterToPolygon lake_raster "SIMPLIFY" "Value");
  save_features polygons (new_feature <$> shapes);;
  (* 6. Clip to coastline *)
  to_clip ← read_features polygons;
  coast ← read_features coastline;
  clipped ← lift (Clip (shape <$> to_clip) (shape <$> coast));
  save_features clipped_polygons (new_feature <$> clipped);;
  (* 7. Area filter (add area field first) *)
  area_filter clipped_polygons;;
  (* 8. Save output *)
  save_output output_name;;
  AddMessage ("--> Saved: " +:+ output_name).

Definition skip_warning (raster_name : string) : string :=
  "Skipping " +:+ raster_name +:+ ": No water_class value specified.".

(** The body of the loop over the rows of the table. *)
Definition CreateLakePolygons_row (idx total : nat) (r : row) : script unit :=
  let raster_name := classified_raster r in
  let water_class := water_class r in
  (* Skip if water class is blank *)
  if String.eqb (Py.strip water_class) EmptyString
  then AddWarning (skip_warning raster_name)
  else
    water_class ← lift (Py.int water_class);
    output_name ← lift (raster_to_lake_name raster_name);
    lake_polygons idx total raster_name water_class output_name.

(** [for idx, row in enumerate(reader, start=idx)] *)
Fixpoint CreateLakePolygons_loop (idx total : nat) (reader : list row) : script unit :=
  match reader with
  | [] => mret tt
  | r :: rest =>
      CreateLakePolygons_row idx total r;;
      CreateLakePolygons_loop (S idx) total rest
  end.

(** The script, given the rows [list(csv.DictReader(csvfile))] holds. *)
Definition CreateLakePolygons (reader : list row) : script unit :=
  let total := length reader in
  CreateLakePolygons_loop 1 total reader.

End CreateLakePolygons.

(** ** Auxiliary notions used in the statements *)

(** The name [extract_location_year] returns. *)
Definition short_name (raster_name : string) : string :=
  match extract_location_year raster_name with
  | Ok s => s
  | Raise _ => EmptyString
  end.

(** The string of a result, empty when it is an exception. *)
Definition result_text (r : result string) : string :=
  match r with
  | Ok s => s
  | Raise _ => EmptyString
  end.

(** [s.endswith(suffix)]. *)
Fixpoint endswith (suffix s : string) : bool :=
  String.eqb s suffix
  || match s with
     | EmptyString => false
     | String _ s' => endswith suffix s'
     end.

(** A string of white space only, the empty string included. *)
Fixpoint blank (s : string) : bool :=
  match s with
  | EmptyString => true
  | String c s' => Py.is_space c && blank s'
  end.

Fixpoint has_underscore (s : string) : bool :=
  match s with
  | EmptyString => false
  | String c s' => Ascii.eqb c Py.underscore || has_underscore s'
  end.

(** The world after [arcpy.AddWarning] of the skipped record's warning. *)
Definition warned `{Backend} (raster_name : string) (w : world) : world :=
  {| files := files w; rasters := rasters w; feature_classes := feature_classes w;
     layers := layers w; log := log w ++ [Warning (skip_warning raster_name)] |}.

(** A record is skipped with a warning: the turn of the loop returns, and
    leaves the world as it was but for the warning. *)
Definition skips_with_warning `{Backend} (r : row) (w : world)
    (out : result unit * world) : Prop :=
  out = (Ok tt, warned (classified_raster r) w).

(** A script that only adds to the log. *)
Definition log_grows `{Backend} {A} (m : script A) : Prop :=
  forall w : world, exists evs : list event, log (m w).2 = log w ++ evs.

(** The path of the tracking table, from the texts of the parameters. *)
Definition csv_path_of `{Backend} (GetParameterAsText : nat -> string) : string :=
  os_path_join (GetParameterAsText 6%nat) "classified_rasters.csv".

(** The records the first tool writes for a list of rasters and a number of
    classes, and the text of a list of records. *)
Definition tracking_rows (num_classes : Z) (rasters : list string) : list (list string) :=
  (fun raster => [iso_output_name_of num_classes (short_name raster); EmptyString])
  <$> rasters.

Definition rows_text (rows : list (list string)) : string :=
  foldr (fun r acc => Csv.writerow r +:+ acc) EmptyString rows.

(** A script that leaves every world related by [R] to the one it started
    from, whether it returns or raises. *)
Definition keeps `{Backend} (R : relation world) {A} (m : script A) : Prop :=
  forall w : world, R w (m w).2.

(** The text files and the raster datasets are the same. *)
Definition same_inputs `{Backend} : relation world :=
  fun w w' => files w' = files w /\ rasters w' = rasters w.

(** No raster dataset has gone. *)
Definition datasets_stay `{Backend} : relation world :=
  fun w w' => forall p, is_Some (rasters w !! p) -> is_Some (rasters w' !! p).

(** The messages of the first tool for one raster, and for the rasters of
    a list numbered from [idx]. *)
Definition IsoClass_messages (cell_size : string) (num_classes : Z)
    (idx total : nat) (raster : string) : list event :=
  [Message ("Processing " +:+ Py.str_of_nat idx +:+ " of "
            +:+ Py.str_of_nat total +:+ ": " +:+ raster);
   Message ("--> Resampled raster to " +:+ cell_size +:+ " meters: "
            +:+ short_name raster +:+ "_" +:+ cell_size +:+ "m");
   Message ("--> Saved classified raster: "
            +:+ iso_output_name_of num_classes (short_name raster))].

Fixpoint IsoClass_log (cell_size : string) (num_classes : Z)
    (idx total : nat) (rasters : list string) : list event :=
  match rasters with
  | [] => []
  | raster :: rest =>
      IsoClass_messages cell_size num_classes idx total raster
      ++ IsoClass_log cell_size num_classes (S idx) total rest
  end.

(** What the second tool reports for the records of a table numbered from
    [idx], when it gets through them: the warning for a blank record, the
    two messages for another. *)
Fixpoint CreateLakePolygons_log (idx total : nat) (reader : list row) : list event :=
  match reader with
  | [] => []
  | r :: rest =>
      (if blank (water_class r)
       then [Warning (skip_warning (classified_raster r))]
       else [Message ("Processing " +:+ Py.str_of_nat idx +:+ " of "
                      +:+ Py.str_of_nat total +:+ ": " +:+ classified_raster r);
             Message ("--> Saved: "
                      +:+ result_text (raster_to_lake_name (classified_raster r)))])
      ++ CreateLakePolygons_log (S idx) total rest
  end.

(** ** A small backend to run the scripts on

    A raster is the list of the values of its cells and a polygon is known
    by its area alone. Resampling, classification, filtering, filling and
    clipping leave their input as it is; every cell left by the last
    reclassification becomes a polygon of 250 square metres. *)

Module Toy.

Definition remap_cell (remap : list (Z * new_value)) (v : Z) : option Z :=
  match List.find (fun e => Z.eqb (fst e) v) remap with
  | Some (_, NewValue n) => Some n
  | Some (_, NODATA) => None
  | None => Some v
  end.

Definition backend : Backend := {|
  Raster := list Z;
  Polygon := float;
  os_path_join := fun a b => a +:+ "/" +:+ b;
  os_path_splitext := fun p => (p, EmptyString);
  ValidateTableName := fun name _ => name;
  Resample := fun r _ _ => Ok r;
  IsoClusterUnsupervisedClassification := fun r _ _ _ => Ok r;
  SearchCursor_Value := fun r => r;
  Reclassify := fun r remap => Ok (omap (remap_cell remap) r);
  MajorityFilter := fun r _ _ => Ok r;
  Fill := fun r => Ok r;
  RasterToPolygon := fun r _ _ => Ok ((fun _ => 250%float) <$> r);
  Clip := fun ps _ => Ok ps;
  area_geodesic := fun p => p;
|}.

Definition parameters (i : nat) : string :=
  match i with
  | 0%nat => "in.gdb"
  | 1%nat => "10"
  | 2%nat => "6"
  | 3%nat => "20"
  | 4%nat => "10"
  | 5%nat => "out.gdb"
  | _ => "project"
  end.

Definition empty_world : @world backend :=
  {| files := ∅; rasters := ∅; feature_classes := ∅; layers := ∅; log := [] |}.

(** A geodatabase with one map sheet, and no tracking table yet. *)
Definition fresh : @world backend :=
  set_rasters (H := backend)
    (<["in.gdb/Sitka_A12_1950_topo" := [1; 2; 3; 2]]> ∅) empty_world.

(** The same with a tracking table that an operator has filled in. *)
Definition annotated_table : string :=
  "classified_raster,water_class" +:+ Csv.lineterminator
  +:+ "Kenai_1951_6class,4" +:+ Csv.lineterminator.

Definition annotated : @world backend :=
  set_files (H := backend)
    (<["project/classified_rasters.csv" := annotated_table]> ∅) fresh.

(** Three clipped polygons, of 150, 200 and 250 square metres. *)
Definition clipped : list (@Feature backend) :=
  (fun a => {| shape := a : @Polygon backend; poly_area := None |})
  <$> [150%float; 200%float; 250%float].

Definition clipped_world : @world backend :=
  set_feature_classes (H := backend)
    (<["in_memory/Sitka_1950_6class_clipped" := clipped]> ∅) empty_world.

(** A classified raster and a coastline, for the second tool. *)
Definition classified : @world backend :=
  set_feature_classes (H := backend) (<["coast" := []]> ∅)
    (set_rasters (H := backend)
       (<["in.gdb/Sitka_1950_6class" := [1; 2; 3; 2]]> ∅) empty_world).

Definition table : list row :=
  [{| classified_raster := "Kenai_1951_6class"; water_class := EmptyString |};
   {| classified_raster := "Sitka_1950_6class"; water_class := "2" |}].

End Toy.

(** * Properties *)

(** ** Results *)

Lemma try_except_ok {A} (a : A) (h : result A) : try_except (Ok a) h = Ok a.
Proof. reflexivity. Qed.

Lemma try_except_returns {A} (body : result A) (a : A) :
  exists b, try_except body (Ok a) = Ok b.
Proof. destruct body as [b|e]; simpl; eauto. Qed.

(** ** Strings *)

Lemma app_cons (c : ascii) (s t : string) : String c s +:+ t = String c (s +:+ t).
Proof. reflexivity. Qed.

Lemma app_empty_r (s : string) : s +:+ "" = s.
Proof. induction s as [|c s IH]; [reflexivity|]. rewrite app_cons. now rewrite IH. Qed.

Lemma app_assoc' (s t u : string) : (s +:+ t) +:+ u = s +:+ t +:+ u.
Proof. induction s as [|c s IH]; [reflexivity|]. rewrite !app_cons. now rewrite IH. Qed.

Lemma endswith_app (p suffix : string) : endswith suffix (p +:+ suffix) = true.
Proof.
  induction p as [|c p IH].
  - change ("" +:+ suffix) with suffix.
    destruct suffix; simpl; rewrite ?String.eqb_refl, ?Ascii.eqb_refl; reflexivity.
  - rewrite app_cons. simpl. rewrite IH. apply orb_true_r.
Qed.

Lemma split_not_nil (sep : ascii) (s : string) : Py.split sep s ≠ [].
Proof.
  destruct s as [|c s]; simpl; [discriminate|].
  destruct (Ascii.eqb c sep); [discriminate|].
  destruct (Py.split sep s); discriminate.
Qed.

(** ** Lists: [next] over a generator, [index] and slices *)

Lemma find_first_at (f : string -> bool) (l : list string) (i : nat) (y : string) :
  l !! i = Some y ->
  f y = true ->
  (forall j p, (j < i)%nat -> l !! j = Some p -> f p = false) ->
  List.find f l = Some y.
Proof.
  revert i. induction l as [|x l IH]; intros i Hi Hy Hbefore; [discriminate|].
  destruct i as [|i]; simpl in *.
  - injection Hi as ->. now rewrite Hy.
  - rewrite (Hbefore 0%nat x); [|lia|reflexivity].
    apply (IH i); [assumption..|].
    intros j p Hj Hp. apply (Hbefore (S j) p); [lia|exact Hp].
Qed.

Lemma find_none_all (f : string -> bool) (l : list string) :
  (forall p, p ∈ l -> f p = false) -> List.find f l = None.
Proof.
  induction l as [|x l IH]; intros Hall; [reflexivity|]. simpl.
  rewrite (Hall x) by constructor.
  apply IH. intros p Hp. apply Hall. now constructor.
Qed.

Lemma index_first_at (l : list string) (i : nat) (y : string) :
  l !! i = Some y ->
  (forall j, (j < i)%nat -> l !! j ≠ Some y) ->
  Py.index y l = Ok i.
Proof.
  revert i. induction l as [|x l IH]; intros i Hi Hbefore; [discriminate|].
  destruct i as [|i]; simpl in *.
  - injection Hi as ->. now rewrite String.eqb_refl.
  - destruct (String.eqb_spec x y) as [->|_].
    + now destruct (Hbefore 0%nat ltac:(lia)).
    + rewrite (IH i); [reflexivity|assumption|].
      intros j Hj. apply (Hbefore (S j)). lia.
Qed.

Lemma slice_to_nonneg {A} (l : list A) (n : nat) :
  Py.slice_to (Z.of_nat n) l = take n l.
Proof.
  unfold Py.slice_to. destruct (Z.ltb_spec (Z.of_nat n) 0); [lia|].
  now rewrite Nat2Z.id.
Qed.

Lemma slice_to_minus_one {A} (l : list A) :
  Py.slice_to (-1) l = take (length l - 1) l.
Proof.
  unfold Py.slice_to. simpl. f_equal. lia.
Qed.

(** The year found and its index, when the first four-digit segment is at
    position [i]. *)
Lemma year_at (raster_name : string) (i : nat) (year : string) :
  let parts := Py.split Py.underscore raster_name in
  parts !! i = Some year ->
  Py.fullmatch_d4 year = true ->
  (forall j p, (j < i)%nat -> parts !! j = Some p -> Py.fullmatch_d4 p = false) ->
  extract_location_year raster_name
  = Ok (Py.join "_" (Py.slice_to (Z.of_nat i - 1) parts) +:+ "_" +:+ year).
Proof.
  intros parts Hi Hy Hbefore. unfold extract_location_year.
  fold parts. unfold Py.next_or.
  rewrite (find_first_at _ _ i year Hi Hy Hbefore). simpl default.
  rewrite (index_first_at parts i year Hi).
  - reflexivity.
  - intros j Hj Hp. specialize (Hbefore j year Hj Hp). congruence.
Qed.

(** ** [extract_location_year] *)

(** C1. When the first segment of four digits is at index [i >= 2],
    [extract_location_year] returns the segments before index [i - 1] (all
    those before the segment that precedes the year) joined with underscores,
    then an underscore and the year; [Sitka_A12_1950_topo] gives
    [Sitka_1950]. *)
Theorem extract_location_year_location_sheet_year :
  (forall (raster_name : string) (i : nat) (year : string),
     let parts := Py.split Py.underscore raster_name in
     parts !! i = Some year ->
     Py.fullmatch_d4 year = true ->
     (forall j p, (j < i)%nat -> parts !! j = Some p -> Py.fullmatch_d4 p = false) ->
     (2 <= i)%nat ->
     extract_location_year raster_name
     = Ok (Py.join "_" (take (i - 1) parts) +:+ "_" +:+ year))
  /\ extract_location_year "Sitka_A12_1950_topo" = Ok "Sitka_1950".
Proof.
  split; [|reflexivity].
  intros raster_name i year parts Hi Hy Hbefore Hge.
  rewrite (year_at raster_name i year Hi Hy Hbefore). fold parts.
  replace (Z.of_nat i - 1) with (Z.of_nat (i - 1)) by lia.
  now rewrite slice_to_nonneg.
Qed.

Lemma extract_location_year_location_sheet_year_witness :
  extract_location_year "Kenai_Peninsula_B7_1951_geo"
  = Ok (Py.join "_" (take (3 - 1) (Py.split Py.underscore "Kenai_Peninsula_B7_1951_geo"))
        +:+ "_" +:+ "1951").
Proof.
  apply (proj1 extract_location_year_location_sheet_year
           "Kenai_Peninsula_B7_1951_geo" 3%nat "1951").
  - reflexivity.
  - reflexivity.
  - intros j p Hj Hp.
    destruct j as [|[|[|j]]]; [| | |lia]; injection Hp as <-; reflexivity.
  - lia.
Defined.

(** C7. [extract_location_year] returns a string for every name and never
    raises; for a name none of whose segments is four digits the string ends
    in [_unknown]. *)
Theorem extract_location_year_total (raster_name : string) :
  exists s : string,
    extract_location_year raster_name = Ok s
    /\ ((forall p, p ∈ Py.split Py.underscore raster_name -> Py.fullmatch_d4 p = false) ->
        endswith "_unknown" s = true).
Proof.
  unfold extract_location_year.
  set (parts := Py.split Py.underscore raster_name).
  set (year := Py.next_or Py.fullmatch_d4 parts "unknown").
  match goal with
  | |- context [try_except ?b (mret ?d)] =>
      destruct (try_except_returns b d) as [location Hloc];
      change (mret d) with (Ok d); rewrite Hloc
  end.
  exists (location +:+ "_" +:+ year). split; [reflexivity|].
  intros Hnone. unfold year, Py.next_or.
  rewrite (find_none_all _ _ Hnone). apply (endswith_app location "_unknown").
Qed.

Lemma extract_location_year_total_witness :
  exists s : string,
    extract_location_year "Sitka_A12_topo" = Ok s /\ endswith "_unknown" s = true.
Proof.
  destruct (extract_location_year_total "Sitka_A12_topo") as [s [Hs Hend]].
  exists s. split; [exact Hs|]. apply Hend.
  intros p Hp. vm_compute in Hp.
  repeat (apply elem_of_cons in Hp as [->|Hp]; [reflexivity|]).
  now apply elem_of_nil in Hp.
Defined.

(** C10. When the first segment is the four-digit one, the slice
    [parts[:year_index - 1]] is [parts[:-1]]: the location is made of every
    segment except the last, the year at their head as soon as the name has
    two segments ([1950_topo] gives [1950_1950]). When the second segment is
    the first four-digit one, the location is empty and the result is an
    underscore followed by the year. *)
Theorem extract_location_year_leading_year :
  (forall (raster_name year : string),
     let parts := Py.split Py.underscore raster_name in
     parts !! 0%nat = Some year ->
     Py.fullmatch_d4 year = true ->
     extract_location_year raster_name
     = Ok (Py.join "_" (take (length parts - 1) parts) +:+ "_" +:+ year)
     /\ ((2 <= length parts)%nat -> take (length parts - 1) parts !! 0%nat = Some year))
  /\ (forall (raster_name sheet year : string),
        let parts := Py.split Py.underscore raster_name in
        parts !! 0%nat = Some sheet ->
        Py.fullmatch_d4 sheet = false ->
        parts !! 1%nat = Some year ->
        Py.fullmatch_d4 year = true ->
        extract_location_year raster_name = Ok ("_" +:+ year))
  /\ extract_location_year "1950_topo" = Ok "1950_1950".
Proof.
  split; [|split; [|reflexivity]].
  - intros raster_name year parts H0 Hy. split.
    + rewrite (year_at raster_name 0 year H0 Hy); [|intros j p Hj; lia].
      fold parts. change (Z.of_nat 0 - 1) with (-1).
      now rewrite slice_to_minus_one.
    + intros Hlen. rewrite lookup_take_lt by lia. exact H0.
  - intros raster_name sheet year parts H0 Hs H1 Hy.
    rewrite (year_at raster_name 1 year H1 Hy).
    + reflexivity.
    + intros j p Hj Hp. assert (j = 0%nat) as -> by lia.
      fold parts in Hp. congruence.
Qed.

Lemma extract_location_year_leading_year_witness :
  extract_location_year "1950_Sitka_topo" = Ok "1950_Sitka_1950"
  /\ extract_location_year "A12_1950_topo" = Ok "_1950".
Proof.
  split.
  - apply (proj1 (proj1 extract_location_year_leading_year
                    "1950_Sitka_topo" "1950" eq_refl eq_refl)).
  - apply (proj1 (proj2 extract_location_year_leading_year)
             "A12_1950_topo" "A12" "1950"); reflexivity.
Defined.

(** ** [raster_to_lake_name] *)

Lemma rpartition_none (s : string) :
  has_underscore s = false -> Py.rpartition Py.underscore s = None.
Proof.
  induction s as [|c s IH]; [reflexivity|]. simpl.
  intros [Hc Hs]%orb_false_elim. now rewrite (IH Hs), Hc.
Qed.

Lemma rpartition_last (base seg : string) :
  has_underscore seg = false ->
  Py.rpartition Py.underscore (base +:+ "_" +:+ seg) = Some (base, seg).
Proof.
  intros Hseg. induction base as [|c base IH].
  - change ("" +:+ "_" +:+ seg) with (String Py.underscore seg). simpl.
    now rewrite (rpartition_none seg Hseg).
  - rewrite app_cons. simpl. now rewrite IH.
Qed.

(** C2, as the code has it. The text before the last underscore is kept and
    [_Lakes] is appended; a name without an underscore is kept whole.
    [Sitka_1950_6class] gives [Sitka_1950_Lakes], and so does
    [Sitka_1950_Lakes] itself: its last segment is stripped and the suffix
    is appended again. *)
Theorem raster_to_lake_name_strips_last_segment :
  (forall base seg : string,
     has_underscore seg = false ->
     raster_to_lake_name (base +:+ "_" +:+ seg) = Ok (base +:+ "_Lakes"))
  /\ (forall name : string,
        has_underscore name = false ->
        raster_to_lake_name name = Ok (name +:+ "_Lakes"))
  /\ raster_to_lake_name "Sitka_1950_6class" = Ok "Sitka_1950_Lakes"
  /\ raster_to_lake_name "Sitka_1950_Lakes" = Ok "Sitka_1950_Lakes".
Proof.
  repeat split.
  - intros base seg Hseg. unfold raster_to_lake_name, Py.rsplit1.
    now rewrite (rpartition_last base seg Hseg).
  - intros name Hname. unfold raster_to_lake_name, Py.rsplit1.
    now rewrite (rpartition_none name Hname).
Qed.

Lemma raster_to_lake_name_strips_last_segment_witness :
  raster_to_lake_name ("Kenai_1951" +:+ "_" +:+ "8class") = Ok ("Kenai_1951" +:+ "_Lakes")
  /\ raster_to_lake_name "Kenai" = Ok ("Kenai" +:+ "_Lakes").
Proof.
  split.
  - apply (proj1 raster_to_lake_name_strips_last_segment "Kenai_1951" "8class").
    reflexivity.
  - apply (proj1 (proj2 raster_to_lake_name_strips_last_segment) "Kenai").
    reflexivity.
Defined.

(** C2, as the specification words it, fails: applied to [Sitka_1950_Lakes]
    the function does not return [Sitka_1950]. *)
Lemma raster_to_lake_name_lakes_counterexample :
  raster_to_lake_name "Sitka_1950_Lakes" <> Ok "Sitka_1950".
Proof. vm_compute. discriminate. Qed.

(** ** [IsoClass.py]: the tracking table *)

Lemma extract_location_year_ok (raster_name : string) :
  extract_location_year raster_name = Ok (short_name raster_name).
Proof.
  unfold short_name, extract_location_year.
  match goal with
  | |- context [try_except ?b (mret ?d)] =>
      destruct (try_except_returns b d) as [location Hloc];
      change (mret d) with (Ok d); rewrite Hloc
  end.
  reflexivity.
Qed.

Lemma rows_text_app (r1 r2 : list (list string)) :
  rows_text (r1 ++ r2) = rows_text r1 +:+ rows_text r2.
Proof.
  induction r1 as [|r r1 IH]; [reflexivity|].
  simpl. rewrite IH. now rewrite app_assoc'.
Qed.

Ltac run_script :=
  unfold mbind, script_bind, mret, script_ret, lift, AddMessage, AddWarning,
    emit, path_exists, write_row, append_row, read_raster, save_raster,
    read_features, save_features, read_layer, save_layer; simpl.

Lemma script_bind_ok `{Backend} {A B} (m : script A) (f : A -> script B)
    (w w' : world) (a : A) :
  m w = (Ok a, w') -> (m ≫= f) w = f a w'.
Proof. intros Hm. unfold mbind, script_bind. now rewrite Hm. Qed.

Lemma script_bind_raise `{Backend} {A B} (m : script A) (f : A -> script B)
    (w w' : world) (e : exn) :
  m w = (Raise e, w') -> (m ≫= f) w = (Raise e, w').
Proof. intros Hm. unfold mbind, script_bind. now rewrite Hm. Qed.

Section IsoClassTable.
Context `{Backend}.
Variables (input_gdb cell_size : string).
Variables (num_classes min_size sample_interval : Z).
Variables (output_gdb csv_path : string).

Local Abbreviation body := (IsoClass_raster input_gdb cell_size num_classes min_size
                    sample_interval output_gdb csv_path).
Local Abbreviation loop := (IsoClass_loop input_gdb cell_size num_classes min_size
                    sample_interval output_gdb csv_path).

(** One turn of the loop either appends the raster's record to the table
    and returns, or raises and leaves every file as it was. *)
Lemma IsoClass_raster_files (idx total : nat) (raster : string) (w : world) :
  let out := body idx total raster w in
  (out.1 = Ok tt
   /\ files out.2
      = <[csv_path := default EmptyString (files w !! csv_path)
                      +:+ Csv.writerow [iso_output_name_of num_classes (short_name raster);
                                        EmptyString]]> (files w))
  \/ ((exists e, out.1 = Raise e) /\ files out.2 = files w).
Proof.
  unfold IsoClass_raster. rewrite extract_location_year_ok. run_script.
  destruct (rasters w !! os_path_join input_gdb raster) as [source|];
    [|right; eauto].
  destruct (Resample source cell_size "NEAREST") as [resampled|e]; simpl;
    [|right; eauto].
  rewrite lookup_insert_eq.
  destruct (IsoClusterUnsupervisedClassification resampled num_classes min_size
              sample_interval) as [iso|e]; simpl; [|right; eauto].
  left. split; reflexivity.
Qed.

(** The loop appends the records of the rasters it gets through, in order,
    after what the table held, and touches no other file. *)
Lemma IsoClass_loop_files (rasters : list string) (idx total : nat) (w : world) (old : string) :
  files w !! csv_path = Some old ->
  let out := loop idx total rasters w in
  exists k : nat,
    (k <= length rasters)%nat
    /\ (out.1 = Ok tt -> k = length rasters)
    /\ files out.2 !! csv_path
       = Some (old +:+ rows_text (tracking_rows num_classes (take k rasters)))
    /\ (forall p, p ≠ csv_path -> files out.2 !! p = files w !! p).
Proof.
  revert idx w old. induction rasters as [|raster rest IH]; intros idx w old Hold.
  - exists 0%nat. simpl. rewrite app_empty_r. auto.
  - simpl.
    destruct (IsoClass_raster_files idx total raster w) as [[Hok Hf]|[[e He] Hf]];
      destruct (body idx total raster w) as [[[]|e'] w1] eqn:Hbody;
      simpl in Hok || simpl in He; try discriminate; simpl in Hf.
    + rewrite (script_bind_ok _ _ _ _ _ Hbody).
      rewrite Hold in Hf. simpl in Hf.
      destruct (IH (S idx) w1 (old +:+ Csv.writerow
                   [iso_output_name_of num_classes (short_name raster); EmptyString]))
        as (k & Hk & Hdone & Hcsv & Hother).
      { rewrite Hf. apply lookup_insert_eq. }
      exists (S k). split; [simpl; lia|]. split; [|split].
      * intros Hr. simpl. f_equal. now apply Hdone.
      * rewrite Hcsv. simpl. now rewrite app_assoc'.
      * intros p Hp. rewrite (Hother p Hp), Hf. now apply lookup_insert_ne.
    + rewrite (script_bind_raise _ _ _ _ _ Hbody). simpl.
      exists 0%nat. split; [lia|]. split; [discriminate|]. split.
      * rewrite Hf, Hold. simpl. now rewrite app_empty_r.
      * intros p _. now rewrite Hf.
Qed.

End IsoClassTable.

Section IsoClassScript.
Context `{Backend}.
Variable GetParameterAsText : nat -> string.
Variable ListRasters : list string.

Local Abbreviation csv_path := (csv_path_of GetParameterAsText).

(** The script past the parsing of its parameters: the header is written
    when the table is absent, then the loop runs. *)
Lemma IsoClass_parsed (num_classes min_size sample_interval : Z) (w : world) :
  Py.int (GetParameterAsText 2%nat) = Ok num_classes ->
  Py.int (GetParameterAsText 3%nat) = Ok min_size ->
  Py.int (GetParameterAsText 4%nat) = Ok sample_interval ->
  IsoClass GetParameterAsText ListRasters w
  = IsoClass_loop (GetParameterAsText 0%nat) (GetParameterAsText 1%nat)
      num_classes min_size sample_interval (GetParameterAsText 5%nat) csv_path
      1 (length ListRasters) ListRasters
      (match files w !! csv_path with
       | Some _ => w
       | None =>
           set_files (<[csv_path := Csv.writerow ["classified_raster"; "water_class"]]>
                        (files w)) w
       end).
Proof.
  intros H2 H3 H4. unfold IsoClass. rewrite H2, H3, H4. run_script.
  fold csv_path. destruct (files w !! csv_path) as [old|] eqn:Hcsv.
  - rewrite bool_decide_eq_true_2 by eauto. reflexivity.
  - rewrite bool_decide_eq_false_2 by (intros [? ?]; discriminate). reflexivity.
Qed.

(** When a parameter does not parse the script raises before it touches
    anything. *)
Lemma IsoClass_unparsed (w : world) :
  (exists e, Py.int (GetParameterAsText 2%nat) = Raise e)
  \/ (exists e, Py.int (GetParameterAsText 3%nat) = Raise e)
  \/ (exists e, Py.int (GetParameterAsText 4%nat) = Raise e) ->
  exists e, IsoClass GetParameterAsText ListRasters w = (Raise e, w).
Proof.
  unfold IsoClass. run_script.
  destruct (Py.int (GetParameterAsText 2%nat)) as [n2|e2]; simpl; [|eauto].
  destruct (Py.int (GetParameterAsText 3%nat)) as [n3|e3]; simpl; [|eauto].
  destruct (Py.int (GetParameterAsText 4%nat)) as [n4|e4]; simpl; [|eauto].
  intros [[e He]|[[e He]|[e He]]]; discriminate.
Qed.

Lemma parse_cases :
  (exists n2 n3 n4,
     Py.int (GetParameterAsText 2%nat) = Ok n2
     /\ Py.int (GetParameterAsText 3%nat) = Ok n3
     /\ Py.int (GetParameterAsText 4%nat) = Ok n4)
  \/ ((exists e, Py.int (GetParameterAsText 2%nat) = Raise e)
      \/ (exists e, Py.int (GetParameterAsText 3%nat) = Raise e)
      \/ (exists e, Py.int (GetParameterAsText 4%nat) = Raise e)).
Proof.
  destruct (Py.int (GetParameterAsText 2%nat)) as [n2|e2]; [|eauto 6].
  destruct (Py.int (GetParameterAsText 3%nat)) as [n3|e3]; [|eauto 6].
  destruct (Py.int (GetParameterAsText 4%nat)) as [n4|e4]; [|eauto 6].
  left. eauto 6.
Qed.

(** C3. When the tracking table exists at the start of [IsoClass], the
    run does not recreate it: what the file held, header and rows, stays
    at its head unchanged, and the run only appends after it the records
    of the rasters it gets through. Read as records, a table of
    [old_rows] becomes [old_rows] followed by the new records. *)
Theorem IsoClass_reuses_table (w : world) (old : string) :
  files w !! csv_path = Some old ->
  let out := IsoClass GetParameterAsText ListRasters w in
  exists (k : nat) (num_classes : Z),
    (k <= length ListRasters)%nat
    /\ files out.2 !! csv_path
       = Some (old +:+ rows_text (tracking_rows num_classes (take k ListRasters)))
    /\ (forall old_rows : list (list string),
          old = rows_text old_rows ->
          files out.2 !! csv_path
          = Some (rows_text (old_rows
                             ++ tracking_rows num_classes (take k ListRasters)))).
Proof.
  intros Hold.
  assert (Hrows : forall k n (content : option string),
            content = Some (old +:+ rows_text (tracking_rows n (take k ListRasters))) ->
            forall old_rows, old = rows_text old_rows ->
            content = Some (rows_text (old_rows
                                       ++ tracking_rows n (take k ListRasters)))).
  { intros k n content -> old_rows ->. now rewrite rows_text_app. }
  destruct parse_cases as [(n2 & n3 & n4 & H2 & H3 & H4)|Hbad].
  - simpl. rewrite (IsoClass_parsed n2 n3 n4 w H2 H3 H4), Hold.
    destruct (IsoClass_loop_files (GetParameterAsText 0%nat) (GetParameterAsText 1%nat)
                n2 n3 n4 (GetParameterAsText 5%nat) csv_path ListRasters 1
                (length ListRasters) w old Hold) as (k & Hk & _ & Hcsv & _).
    exists k, n2. split; [assumption|]. split; [assumption|]. now apply Hrows.
  - destruct (IsoClass_unparsed w Hbad) as [e He]. simpl. rewrite He. simpl.
    assert (Hkeep : files w !! csv_path
                    = Some (old +:+ rows_text (tracking_rows 0 (take 0 ListRasters)))).
    { rewrite Hold. simpl. now rewrite app_empty_r. }
    exists 0%nat, 0. split; [lia|]. split; [assumption|]. now apply Hrows.
Qed.

(** C8. On a run that gets through every raster, the table ends up as
    what it held before (the header line alone when the run created it)
    followed by one record per raster of the list, in the order of the
    list; the record of a raster is its short name with the class-count
    tag, and an empty [water_class]. The header line is
    [classified_raster,water_class]. *)
Theorem IsoClass_one_row_per_raster (w : world) :
  let out := IsoClass GetParameterAsText ListRasters w in
  let header := Csv.writerow ["classified_raster"; "water_class"] in
  out.1 = Ok tt ->
  exists num_classes : Z,
    Py.int (GetParameterAsText 2%nat) = Ok num_classes
    /\ files out.2 !! csv_path
       = Some (default header (files w !! csv_path)
               +:+ rows_text (tracking_rows num_classes ListRasters))
    /\ tracking_rows num_classes ListRasters
       = (fun raster =>
            [short_name raster +:+ "_" +:+ Py.str_of_int num_classes +:+ "class";
             EmptyString]) <$> ListRasters
    /\ header = "classified_raster,water_class" +:+ Csv.lineterminator.
Proof.
  intros out header Hrun. subst out.
  destruct parse_cases as [(n2 & n3 & n4 & H2 & H3 & H4)|Hbad].
  - exists n2. split; [assumption|]. split; [|split; reflexivity].
    rewrite (IsoClass_parsed n2 n3 n4 w H2 H3 H4) in Hrun |- *.
    match type of Hrun with
    | (IsoClass_loop _ _ _ _ _ _ _ _ _ _ ?w0).1 = _ =>
        destruct (IsoClass_loop_files (GetParameterAsText 0%nat)
                    (GetParameterAsText 1%nat) n2 n3 n4 (GetParameterAsText 5%nat)
                    csv_path ListRasters 1 (length ListRasters) w0
                    (default header (files w !! csv_path)))
          as (k & Hk & Hdone & Hcsv & _)
    end.
    { destruct (files w !! csv_path) as [old|] eqn:Hold; simpl.
      - exact Hold.
      - apply lookup_insert_eq. }
    rewrite Hcsv, (Hdone Hrun). now rewrite firstn_all.
  - destruct (IsoClass_unparsed w Hbad) as [e He]. rewrite He in Hrun.
    discriminate.
Qed.

End IsoClassScript.

(** ** White space, [strip] and [int] *)

Lemma lstrip_blank (s : string) :
  blank s = true -> Py.lstrip_by Py.is_space s = EmptyString.
Proof.
  induction s as [|c s IH]; [reflexivity|]. simpl.
  intros [Hc Hs]%andb_prop. rewrite Hc. now apply IH.
Qed.

Lemma lstrip_not_blank (s : string) :
  blank s = false ->
  exists c s', Py.lstrip_by Py.is_space s = String c s' /\ Py.is_space c = false.
Proof.
  induction s as [|c s IH]; [discriminate|]. simpl.
  destruct (Py.is_space c) eqn:Hc; simpl; [exact IH|eauto].
Qed.

Lemma rstrip_keeps_head (f : ascii -> bool) (c : ascii) (s : string) :
  f c = false -> exists r, Py.rstrip_by f (String c s) = String c r.
Proof.
  intros Hc. simpl. destruct (Py.rstrip_by f s); [rewrite Hc|]; eauto.
Qed.

Lemma rstrip_head (f : ascii -> bool) (c : ascii) (s : string) :
  Py.rstrip_by f (String c s) = EmptyString
  \/ exists r, Py.rstrip_by f (String c s) = String c r.
Proof.
  simpl. destruct (Py.rstrip_by f s); [destruct (f c)|]; eauto.
Qed.

(** [not s.strip()] holds exactly of the strings of white space only. *)
Lemma strip_empty_iff_blank (s : string) :
  Py.strip s = EmptyString <-> blank s = true.
Proof.
  unfold Py.strip. split.
  - intros Hstrip. destruct (blank s) eqn:Hb; [reflexivity|].
    destruct (lstrip_not_blank s Hb) as (c & s' & Hl & Hc).
    rewrite Hl in Hstrip.
    destruct (rstrip_keeps_head Py.is_space c s' Hc) as [r Hr]. congruence.
  - intros Hb. now rewrite (lstrip_blank s Hb).
Qed.

Lemma blank_lstrip (f : ascii -> bool) (s : string) :
  blank s = true -> blank (Py.lstrip_by f s) = true.
Proof.
  induction s as [|c s IH]; [reflexivity|]. simpl.
  intros Hb. destruct (andb_prop _ _ Hb) as [Hc Hs].
  destruct (f c); [now apply IH|exact Hb].
Qed.

Lemma space_not_number (c : ascii) :
  Py.is_space c = true ->
  Py.is_digit c = false /\ c ≠ "+"%char /\ c ≠ "-"%char.
Proof.
  destruct c as [[] [] [] [] [] [] [] []]; vm_compute; intros Hc;
    try discriminate Hc; repeat split; discriminate.
Qed.

(** [int] raises [ValueError] on a string of white space only. *)
Lemma int_blank (s : string) : blank s = true -> Py.int s = Raise ValueError.
Proof.
  intros Hb. unfold Py.int.
  pose proof (blank_lstrip Py.is_int_space s Hb) as Hb1.
  destruct (Py.lstrip_by Py.is_int_space s) as [|c r]; [reflexivity|].
  simpl in Hb1. destruct (andb_prop _ _ Hb1) as [Hc _].
  destruct (space_not_number c Hc) as (Hd & Hplus & Hminus).
  assert (Hsign : match String c r with
                  | String "+"%char r0 => (false, r0)
                  | String "-"%char r0 => (true, r0)
                  | _ => (false, String c r)
                  end = (false, String c r)).
  { destruct c as [[] [] [] [] [] [] [] []]; try reflexivity; congruence. }
  rewrite Hsign.
  destruct (rstrip_head Py.is_int_space c r) as [Hr|[r' Hr]]; rewrite Hr.
  - reflexivity.
  - simpl. rewrite Hd. now rewrite andb_false_r.
Qed.

Lemma int_not_blank (s : string) (n : Z) : Py.int s = Ok n -> blank s = false.
Proof.
  intros Hint. destruct (blank s) eqn:Hb; [|reflexivity].
  rewrite (int_blank s Hb) in Hint. discriminate.
Qed.

Lemma raster_to_lake_name_returns (raster_name : string) :
  exists output_name, raster_to_lake_name raster_name = Ok output_name.
Proof.
  unfold raster_to_lake_name, Py.rsplit1.
  destruct (Py.rpartition Py.underscore raster_name) as [[h t]|]; simpl; eauto.
Qed.

(** ** Scripts only add to the log *)

Create HintDb log_grows.

Section LogGrows.
Context `{Backend}.

Lemma log_grows_ret {A} (a : A) : log_grows (mret a : script A).
Proof. intros w. exists []. simpl. now rewrite app_nil_r. Qed.

Lemma log_grows_lift {A} (r : result A) : log_grows (lift r).
Proof. intros w. exists []. simpl. now rewrite app_nil_r. Qed.

Lemma log_grows_bind {A B} (m : script A) (f : A -> script B) :
  log_grows m -> (forall a, log_grows (f a)) -> log_grows (m ≫= f).
Proof.
  intros Hm Hf w. destruct (Hm w) as [evs Hevs].
  destruct (m w) as [[a|e] w1] eqn:Hmw; simpl in Hevs.
  - rewrite (script_bind_ok _ _ _ _ _ Hmw).
    destruct (Hf a w1) as [evs' Hevs']. exists (evs ++ evs').
    now rewrite Hevs', Hevs, app_assoc.
  - rewrite (script_bind_raise _ _ _ _ _ Hmw). now exists evs.
Qed.

Lemma log_grows_emit (e : event) : log_grows (emit e).
Proof. intros w. now exists [e]. Qed.

Lemma log_grows_read_raster (path : string) : log_grows (read_raster path).
Proof.
  intros w. exists []. unfold read_raster.
  destruct (rasters w !! path); simpl; now rewrite app_nil_r.
Qed.

Lemma log_grows_read_features (path : string) : log_grows (read_features path).
Proof.
  intros w. exists []. unfold read_features.
  destruct (feature_classes w !! path); simpl; now rewrite app_nil_r.
Qed.

Lemma log_grows_read_layer (name : string) : log_grows (read_layer name).
Proof.
  intros w. exists []. unfold read_layer.
  destruct (layers w !! name); simpl; now rewrite app_nil_r.
Qed.

Lemma log_grows_save_raster (path : string) (r : Raster) :
  log_grows (save_raster path r).
Proof. intros w. exists []. simpl. now rewrite app_nil_r. Qed.

Lemma log_grows_save_features (path : string) (fs : list Feature) :
  log_grows (save_features path fs).
Proof. intros w. exists []. simpl. now rewrite app_nil_r. Qed.

Lemma log_grows_save_layer (name : string) (fs : list Feature) :
  log_grows (save_layer name fs).
Proof. intros w. exists []. simpl. now rewrite app_nil_r. Qed.

End LogGrows.

#[export] Hint Resolve log_grows_ret log_grows_lift log_grows_emit
  log_grows_read_raster log_grows_read_features log_grows_read_layer
  log_grows_save_raster log_grows_save_features log_grows_save_layer : log_grows.

Ltac log_grows :=
  repeat (apply log_grows_bind; [|intros ?]);
  unfold AddMessage, AddWarning; auto with log_grows.

(** ** [CreateLakePolygons.py]: the loop over the records *)

Section Records.
Context `{Backend}.
Variables (input_gdb coastline : string).
Variable (area_threshold : float).
Variable (output_gdb : string).

Local Abbreviation process :=
  (lake_polygons input_gdb coastline area_threshold output_gdb).
Local Abbreviation body :=
  (CreateLakePolygons_row input_gdb coastline area_threshold output_gdb).
Local Abbreviation loop :=
  (CreateLakePolygons_loop input_gdb coastline area_threshold output_gdb).

(** Steps 1 to 8 start with the progress message, whatever happens next. *)
Lemma lake_polygons_log (idx total : nat) (raster_name : string) (n : Z)
    (output_name : string) (w : world) :
  exists evs : list event,
    log (process idx total raster_name n output_name w).2
    = log w ++ Message ("Processing " +:+ Py.str_of_nat idx +:+ " of "
                        +:+ Py.str_of_nat total +:+ ": " +:+ raster_name) :: evs.
Proof.
  unfold lake_polygons.
  match goal with
  | |- context [mbind ?f (AddMessage ?m)] =>
      assert (Hrest : log_grows (f tt))
        by (unfold area_filter, save_output; log_grows);
      rewrite (script_bind_ok (AddMessage m) f w (emit (Message m) w).2 tt eq_refl);
      destruct (Hrest (emit (Message m) w).2) as [evs Hevs]
  end.
  exists evs. cbv beta in Hevs |- *. rewrite Hevs. simpl. now rewrite <- app_assoc.
Qed.

Lemma row_blank (idx total : nat) (r : row) (w : world) :
  blank (water_class r) = true ->
  body idx total r w = (Ok tt, warned (classified_raster r) w).
Proof.
  intros Hb. unfold CreateLakePolygons_row.
  apply strip_empty_iff_blank in Hb. rewrite Hb. reflexivity.
Qed.

Lemma row_not_blank (idx total : nat) (r : row) (w : world) :
  blank (water_class r) = false ->
  body idx total r w
  = (n ← lift (Py.int (water_class r));
     output_name ← lift (raster_to_lake_name (classified_raster r));
     process idx total (classified_raster r) n output_name) w.
Proof.
  intros Hb. unfold CreateLakePolygons_row.
  destruct (String.eqb_spec (Py.strip (water_class r)) EmptyString) as [He|_];
    [|reflexivity].
  apply strip_empty_iff_blank in He. congruence.
Qed.

Lemma row_integer (idx total : nat) (r : row) (w : world) (n : Z) :
  Py.int (water_class r) = Ok n ->
  exists output_name,
    raster_to_lake_name (classified_raster r) = Ok output_name
    /\ body idx total r w = process idx total (classified_raster r) n output_name w.
Proof.
  intros Hint. destruct (raster_to_lake_name_returns (classified_raster r)) as [o Ho].
  exists o. split; [exact Ho|].
  rewrite (row_not_blank idx total r w (int_not_blank _ _ Hint)).
  run_script. rewrite Hint. simpl. rewrite Ho. reflexivity.
Qed.

Lemma row_not_blank_not_skipped (idx total : nat) (r : row) (w : world) :
  blank (water_class r) = false ->
  ~ skips_with_warning r w (body idx total r w).
Proof.
  intros Hb Hskip. unfold skips_with_warning in Hskip.
  destruct (Py.int (water_class r)) as [n|e] eqn:Hint.
  - destruct (row_integer idx total r w n Hint) as (o & _ & Hrow).
    destruct (lake_polygons_log idx total (classified_raster r) n o w) as [evs Hlog].
    rewrite <- Hrow, Hskip in Hlog. simpl in Hlog.
    apply app_inv_head in Hlog. discriminate.
  - rewrite (row_not_blank idx total r w Hb) in Hskip.
    revert Hskip. run_script. rewrite Hint. discriminate.
Qed.

(** C4. A turn of the loop skips its record with the warning exactly when
    the record's [water_class] is blank, and the loop then goes on with
    the records that remain; a record whose [water_class] is an integer
    is not blank and goes through steps 1 to 8. *)
Theorem row_skipped_iff_blank (idx total : nat) (r : row) (w : world) :
  (skips_with_warning r w (body idx total r w) <-> blank (water_class r) = true)
  /\ (blank (water_class r) = true ->
      forall rest : list row,
        loop idx total (r :: rest) w
        = loop (S idx) total rest (warned (classified_raster r) w))
  /\ (forall n : Z,
        Py.int (water_class r) = Ok n ->
        blank (water_class r) = false
        /\ ~ skips_with_warning r w (body idx total r w)
        /\ exists output_name,
             raster_to_lake_name (classified_raster r) = Ok output_name
             /\ body idx total r w
                = process idx total (classified_raster r) n output_name w).
Proof.
  split; [|split].
  - split.
    + intros Hskip. destruct (blank (water_class r)) eqn:Hb; [reflexivity|].
      now destruct (row_not_blank_not_skipped idx total r w Hb).
    + intros Hb. unfold skips_with_warning. now apply row_blank.
  - intros Hb rest. simpl.
    now rewrite (script_bind_ok _ _ _ _ _ (row_blank idx total r w Hb)).
  - intros n Hint. pose proof (int_not_blank _ _ Hint) as Hb.
    split; [exact Hb|]. split.
    + now apply row_not_blank_not_skipped.
    + now apply row_integer.
Qed.

(** C9. A record whose [water_class] is not empty but is white space only
    is skipped with the warning like one with an empty field; [int] is not
    applied to it: it would raise [ValueError], and the turn returns. *)
Theorem row_whitespace_only_skipped (idx total : nat) (r : row) (w : world) :
  water_class r ≠ EmptyString ->
  blank (water_class r) = true ->
  skips_with_warning r w (body idx total r w)
  /\ body idx total r w
     = body idx total {| classified_raster := classified_raster r;
                         water_class := EmptyString |} w
  /\ Py.int (water_class r) = Raise ValueError.
Proof.
  intros _ Hb. split; [|split].
  - unfold skips_with_warning. now apply row_blank.
  - rewrite (row_blank idx total r w Hb).
    now rewrite (row_blank idx total
                   {| classified_raster := classified_raster r;
                      water_class := EmptyString |} w eq_refl).
  - now apply int_blank.
Qed.

End Records.

(** ** The remap table of step 1 *)

Lemma elem_of_non_water (water_class : Z) (values : list Z) (v : Z) :
  v ∈ non_water_of water_class (class_values_of values)
  <-> v ≠ water_class /\ v ∈ values.
Proof.
  unfold non_water_of, class_values_of.
  rewrite list_elem_of_filter, elem_of_elements, elem_of_list_to_set.
  reflexivity.
Qed.

Lemma NoDup_non_water (water_class : Z) (values : list Z) :
  NoDup (non_water_of water_class (class_values_of values)).
Proof. unfold non_water_of. apply NoDup_filter, NoDup_elements. Qed.

Lemma elem_of_remap (water_class : Z) (values : list Z) (v : Z) (nv : new_value) :
  (v, nv) ∈ remap_of water_class (class_values_of values)
  <-> (v = water_class /\ nv = NewValue 1)
      \/ (v ∈ values /\ v ≠ water_class /\ nv = NewValue 0).
Proof.
  unfold remap_of. rewrite elem_of_cons, list_elem_of_fmap. split.
  - intros [Heq|(x & Heq & Hx)].
    + injection Heq as -> ->. now left.
    + injection Heq as -> ->. apply elem_of_non_water in Hx as [Hne Hin]. now right.
  - intros [[-> ->]|(Hin & Hne & ->)]; [now left|].
    right. exists v. split; [reflexivity|]. now apply elem_of_non_water.
Qed.

Lemma remap_keys (nv : new_value) (l : list Z) :
  ((fun val => (val, nv)) <$> l).*1 = l.
Proof.
  induction l as [|v l IH]; [reflexivity|].
  rewrite !fmap_cons. simpl. f_equal. exact IH.
Qed.

(** C6. Whatever values the cursor yields and whatever the water class,
    the remap table sends the water class to 1 and every other value
    observed to 0, with one entry per value. When the water class is not
    among the values observed the table is built all the same, and every
    value observed goes to 0 and none to 1. *)
Theorem remap_of_binary (values : list Z) (water_class : Z) :
  let remap := remap_of water_class (class_values_of values) in
  (water_class, NewValue 1) ∈ remap
  /\ (forall v, v ∈ values -> v ≠ water_class -> (v, NewValue 0) ∈ remap)
  /\ NoDup (remap.*1)
  /\ (forall v nv, (v, nv) ∈ remap -> v = water_class \/ v ∈ values)
  /\ (water_class ∉ values ->
      forall v, v ∈ values -> (v, NewValue 0) ∈ remap /\ (v, NewValue 1) ∉ remap).
Proof.
  intros remap. subst remap. split; [|split; [|split; [|split]]].
  - apply elem_of_remap. now left.
  - intros v Hin Hne. apply elem_of_remap. now right.
  - unfold remap_of. rewrite fmap_cons, remap_keys. simpl.
    apply NoDup_cons. split; [|apply NoDup_non_water].
    intros [Hne _]%elem_of_non_water. now apply Hne.
  - intros v nv [[-> _]|(Hin & _)]%elem_of_remap; [now left|now right].
  - intros Hout v Hin. split.
    + apply elem_of_remap. right. repeat split; [exact Hin|].
      intros ->. now apply Hout.
    + intros [[-> _]|(_ & _ & Hnv)]%elem_of_remap; [now apply Hout|discriminate].
Qed.

Lemma remap_of_binary_witness :
  (2, NewValue 0) ∈ remap_of 7 (class_values_of [1; 2; 3; 2])
  /\ (2, NewValue 1) ∉ remap_of 7 (class_values_of [1; 2; 3; 2]).
Proof.
  apply (proj2 (proj2 (proj2 (proj2 (remap_of_binary [1; 2; 3; 2] 7))))).
  - intros Hin. repeat (apply elem_of_cons in Hin as [Hin|Hin]; [discriminate|]).
    now apply elem_of_nil in Hin.
  - apply elem_of_cons. right. apply elem_of_cons. now left.
Defined.

(** ** The area filter *)

Lemma SFcompare_refl_not_Lt (x : SpecFloat.spec_float) :
  SpecFloat.SFcompare x x ≠ Some Lt.
Proof.
  destruct x as [s|s| |s m e]; simpl; try destruct s; try discriminate;
    rewrite Z.compare_refl, Pos.compare_cont_refl; discriminate.
Qed.

Lemma SFcompare_Eq_sym (x y : SpecFloat.spec_float) :
  SpecFloat.SFcompare x y = Some Eq -> SpecFloat.SFcompare y x = Some Eq.
Proof.
  destruct x as [s|s| |s m e], y as [s'|s'| |s' m' e']; simpl;
    try destruct s; try destruct s'; try discriminate; try reflexivity;
    intros Hc; injection Hc as Hc;
    destruct (Z.compare_spec e e') as [->| |]; try discriminate;
    rewrite Z.compare_refl.
  - destruct (Pos.compare_cont Eq m m') eqn:Hm; try discriminate.
    apply Pos.compare_eq in Hm as ->. now rewrite Pos.compare_cont_refl.
  - apply Pos.compare_eq in Hc as ->. now rewrite Pos.compare_cont_refl.
Qed.

(** A float strictly above another is neither that float nor equal to it. *)
Lemma ltb_strict (t a : float) :
  PrimFloat.ltb t a = true -> a ≠ t /\ PrimFloat.eqb a t = false.
Proof.
  rewrite ltb_spec, FloatAxioms.eqb_spec. unfold SpecFloat.SFltb, SpecFloat.SFeqb.
  intros Hlt. split.
  - intros ->. pose proof (SFcompare_refl_not_Lt (Prim2SF t)) as Hne.
    destruct (SpecFloat.SFcompare (Prim2SF t) (Prim2SF t)) as [[]|]; congruence.
  - destruct (SpecFloat.SFcompare (Prim2SF a) (Prim2SF t)) as [[]|] eqn:Hc;
      try reflexivity.
    rewrite (SFcompare_Eq_sym _ _ Hc) in Hlt. discriminate.
Qed.

Section AreaFilter.
Context `{Backend}.
Variable (area_threshold : float).
Variable (output_gdb : string).

Local Abbreviation measured :=
  (fun p : Feature => with_area (Some (area_geodesic (shape p))) p).

(** Steps 7 and 8 on a world that holds the clipped polygons: the output
    feature class is made of the clipped polygons that pass the clause,
    with their areas. *)
Lemma area_filter_output (clipped_polygons output_name : string)
    (clipped : list Feature) (w : world) :
  feature_classes w !! clipped_polygons = Some clipped ->
  let out := (area_filter area_threshold clipped_polygons;;
              save_output output_gdb output_name) w in
  out.1 = Ok tt
  /\ feature_classes out.2 !! final_output_of output_gdb output_name
     = Some (filter (fun f => area_clause area_threshold f = true)
               (measured <$> clipped)).
Proof.
  intros Hclipped. unfold area_filter, save_output. run_script.
  rewrite Hclipped. simpl. repeat (rewrite lookup_insert_eq; simpl).
  split; [reflexivity|]. f_equal. f_equal.
  rewrite <- list_fmap_compose. reflexivity.
Qed.

(** C5. The selection is strict: a clipped polygon is in the output
    exactly when its geodesic area is strictly greater than the threshold;
    a polygon whose area is the threshold is left out. *)
Theorem area_filter_strict (clipped_polygons output_name : string)
    (clipped : list Feature) (w : world) :
  feature_classes w !! clipped_polygons = Some clipped ->
  let out := (area_filter area_threshold clipped_polygons;;
              save_output output_gdb output_name) w in
  out.1 = Ok tt
  /\ exists kept : list Feature,
       feature_classes out.2 !! final_output_of output_gdb output_name = Some kept
       /\ (forall f, f ∈ kept -> exists p, p ∈ clipped /\ f = measured p)
       /\ (forall p, p ∈ clipped ->
             (measured p ∈ kept
              <-> PrimFloat.ltb area_threshold (area_geodesic (shape p)) = true))
       /\ (forall p, p ∈ clipped ->
             area_geodesic (shape p) = area_threshold
             \/ PrimFloat.eqb (area_geodesic (shape p)) area_threshold = true ->
             measured p ∉ kept).
Proof.
  intros Hclipped out.
  destruct (area_filter_output clipped_polygons output_name clipped w Hclipped)
    as [Hok Hout].
  split; [exact Hok|]. eexists. split; [exact Hout|].
  assert (Hin : forall p, p ∈ clipped ->
            (measured p ∈ filter (fun f => area_clause area_threshold f = true)
                           (measured <$> clipped)
             <-> PrimFloat.ltb area_threshold (area_geodesic (shape p)) = true)).
  { intros p Hp. rewrite list_elem_of_filter. unfold area_clause. simpl. split.
    - now intros [Hlt _].
    - intros Hlt. split; [exact Hlt|]. apply list_elem_of_fmap. eauto. }
  split; [|split].
  - intros f [_ (p & -> & Hp)%list_elem_of_fmap]%list_elem_of_filter. eauto.
  - exact Hin.
  - intros p Hp Heq Hkept. apply (Hin p Hp) in Hkept.
    destruct (ltb_strict _ _ Hkept) as [Hne Hneq].
    destruct Heq as [Heq|Heq]; congruence.
Qed.

End AreaFilter.

(** ** The statements at work on the small backend *)

Lemma IsoClass_reuses_table_witness :
  exists (k : nat) (num_classes : Z),
    (k <= 1)%nat
    /\ files (IsoClass (H := Toy.backend) Toy.parameters ["Sitka_A12_1950_topo"]
                Toy.annotated).2
       !! "project/classified_rasters.csv"
       = Some (Toy.annotated_table
               +:+ rows_text (tracking_rows num_classes
                                (take k ["Sitka_A12_1950_topo"]))).
Proof.
  destruct (@IsoClass_reuses_table Toy.backend Toy.parameters ["Sitka_A12_1950_topo"]
              Toy.annotated Toy.annotated_table) as (k & n & Hk & Hfile & _).
  - vm_compute. reflexivity.
  - exists k, n. split; [exact Hk|exact Hfile].
Defined.

Lemma IsoClass_one_row_per_raster_witness :
  exists num_classes : Z,
    Py.int "6" = Ok num_classes
    /\ files (IsoClass (H := Toy.backend) Toy.parameters ["Sitka_A12_1950_topo"]
                Toy.fresh).2
       !! "project/classified_rasters.csv"
       = Some (("classified_raster,water_class" +:+ Csv.lineterminator)
               +:+ rows_text (tracking_rows num_classes ["Sitka_A12_1950_topo"])).
Proof.
  destruct (@IsoClass_one_row_per_raster Toy.backend Toy.parameters
              ["Sitka_A12_1950_topo"] Toy.fresh) as (n & Hn & Hfile & _ & _).
  - vm_compute. reflexivity.
  - exists n. split; [exact Hn|exact Hfile].
Defined.

Lemma row_skipped_iff_blank_witness :
  let r := {| classified_raster := "Sitka_1950_6class"; water_class := EmptyString |} in
  let r' := {| classified_raster := "Kenai_1951_6class"; water_class := "2" |} in
  CreateLakePolygons_loop (H := Toy.backend) "in.gdb" "coast" 200%float "out.gdb"
    1 2 [r; r'] Toy.empty_world
  = CreateLakePolygons_loop (H := Toy.backend) "in.gdb" "coast" 200%float "out.gdb"
      2 2 [r'] (warned "Sitka_1950_6class" Toy.empty_world)
  /\ blank (water_class r') = false.
Proof.
  intros r r'. split.
  - apply (proj1 (proj2 (@row_skipped_iff_blank Toy.backend "in.gdb" "coast"
                           200%float "out.gdb" 1 2 r Toy.empty_world))).
    reflexivity.
  - apply (proj2 (proj2 (@row_skipped_iff_blank Toy.backend "in.gdb" "coast"
                           200%float "out.gdb" 2 2 r' Toy.empty_world)) 2).
    reflexivity.
Defined.

Lemma row_whitespace_only_skipped_witness :
  let r := {| classified_raster := "Sitka_1950_6class"; water_class := "  " |} in
  skips_with_warning (H := Toy.backend) r Toy.empty_world
    (CreateLakePolygons_row (H := Toy.backend) "in.gdb" "coast" 200%float "out.gdb"
       1 1 r Toy.empty_world).
Proof.
  intros r.
  apply (@row_whitespace_only_skipped Toy.backend "in.gdb" "coast" 200%float
           "out.gdb" 1 1 r Toy.empty_world).
  - discriminate.
  - reflexivity.
Defined.

Lemma area_filter_strict_witness :
  ((area_filter (H := Toy.backend) 200%float "in_memory/Sitka_1950_6class_clipped";;
    save_output (H := Toy.backend) "out.gdb" "Sitka_1950_Lakes") Toy.clipped_world).1
  = Ok tt.
Proof.
  apply (@area_filter_strict Toy.backend 200%float "out.gdb"
           "in_memory/Sitka_1950_6class_clipped" "Sitka_1950_Lakes"
           Toy.clipped Toy.clipped_world).
  vm_compute. reflexivity.
Defined.

(** The two tools in a row on the small backend: the table the first one
    creates, and what the second one saves once the water class is filled
    in. *)
Example IsoClass_fresh_table :
  files (IsoClass (H := Toy.backend) Toy.parameters ["Sitka_A12_1950_topo"]
           Toy.fresh).2 !! "project/classified_rasters.csv"
  = Some ("classified_raster,water_class" +:+ Csv.lineterminator
          +:+ "Sitka_1950_6class," +:+ Csv.lineterminator).
Proof. vm_compute. reflexivity. Qed.

Example area_filter_keeps_250 :
  feature_classes
    ((area_filter (H := Toy.backend) 200%float "in_memory/Sitka_1950_6class_clipped";;
      save_output (H := Toy.backend) "out.gdb" "Sitka_1950_Lakes") Toy.clipped_world).2
  !! "out.gdb/Sitka_1950_Lakes"
  = Some [{| shape := 250%float : @Polygon Toy.backend;
             poly_area := Some 250%float |}].
Proof. vm_compute. reflexivity. Qed.
Example ely_sitka : extract_location_year "Sitka_A12_1950_topo" = Ok "Sitka_1950".
Proof. reflexivity. Qed.

Example ely_first : extract_location_year "1950_topo" = Ok "1950_1950".
Proof. reflexivity. Qed.

Example ely_second : extract_location_year "A12_1950_topo" = Ok "_1950".
Proof. reflexivity. Qed.

Example ely_none : extract_location_year "Sitka_A12_topo" = Ok "UnknownLoc_unknown".
Proof. reflexivity. Qed.

Example ely_unknown_part :
  extract_location_year "a_b_unknown_c" = Ok "a_unknown".
Proof. reflexivity. Qed.

Example rtl_6class : raster_to_lake_name "Sitka_1950_6class" = Ok "Sitka_1950_Lakes".
Proof. reflexivity. Qed.

Example rtl_lakes : raster_to_lake_name "Sitka_1950_Lakes" = Ok "Sitka_1950_Lakes".
Proof. reflexivity. Qed.

Example rtl_plain : raster_to_lake_name "Sitka" = Ok "Sitka_Lakes".
Proof. reflexivity. Qed.

Example int_examples :
  Py.int " 12 " = Ok 12 /\ Py.int "-3" = Ok (-3) /\ Py.int "+007" = Ok 7
  /\ Py.int "1_000" = Ok 1000 /\ Py.int "1__0" = Raise ValueError
  /\ Py.int "2.0" = Raise ValueError /\ Py.int "" = Raise ValueError
  /\ Py.int "- 3" = Raise ValueError /\ Py.int "6_" = Raise ValueError.
Proof. repeat split; reflexivity. Qed.

Example writerow_examples :
  Csv.writerow ["Sitka_1950_6class"; ""] = "Sitka_1950_6class," +:+ Csv.lineterminator
  /\ Csv.writerow ["a,b"; ""]
     = String Csv.quotechar ("a,b" +:+ String Csv.quotechar ("," +:+ Csv.lineterminator))
  /\ Csv.writerow [""] = String Csv.quotechar (String Csv.quotechar Csv.lineterminator).
Proof. repeat split; reflexivity. Qed.

(** The second tool on a table of two records: the first is skipped with
    its warning, the second gives two polygons of the water class. *)
Example CreateLakePolygons_table :
  let out := CreateLakePolygons (H := Toy.backend) "in.gdb" "coast" 200%float
               "out.gdb" Toy.table Toy.classified in
  out.1 = Ok tt
  /\ log out.2
     = [Warning "Skipping Kenai_1951_6class: No water_class value specified.";
        Message "Processing 2 of 2: Sitka_1950_6class";
        Message "--> Saved: Sitka_1950_Lakes"]
  /\ feature_classes out.2 !! "out.gdb/Sitka_1950_Lakes"
     = Some [{| shape := 250%float : @Polygon Toy.backend;
                poly_area := Some 250%float |};
             {| shape := 250%float : @Polygon Toy.backend;
                poly_area := Some 250%float |}].
Proof. vm_compute. repeat split; reflexivity. Qed.

(** * Further properties of the two tools *)

(** ** Names built from segments *)

Lemma has_underscore_app (s t : string) :
  has_underscore (s +:+ t) = has_underscore s || has_underscore t.
Proof.
  induction s as [|c s IH]; [reflexivity|].
  rewrite app_cons. simpl. rewrite IH. now rewrite orb_assoc.
Qed.

Lemma split_no_underscore (s : string) :
  has_underscore s = false -> Py.split Py.underscore s = [s].
Proof.
  induction s as [|c s IH]; [reflexivity|]. simpl.
  intros [Hc Hs]%orb_false_elim. now rewrite Hc, (IH Hs).
Qed.

Lemma split_segment (p rest : string) :
  has_underscore p = false ->
  Py.split Py.underscore (p +:+ "_" +:+ rest) = p :: Py.split Py.underscore rest.
Proof.
  induction p as [|c p IH]; intros Hp.
  - reflexivity.
  - simpl in Hp. apply orb_false_elim in Hp as [Hc Hp].
    rewrite app_cons. simpl. rewrite Hc. now rewrite (IH Hp).
Qed.

(** Splitting a joined list of segments gives the segments back. *)
Lemma split_join (l : list string) :
  l ≠ [] ->
  Forall (fun p => has_underscore p = false) l ->
  Py.split Py.underscore (Py.join "_" l) = l.
Proof.
  induction l as [|p l IH]; [congruence|]. intros _ Hall.
  apply Forall_cons in Hall as [Hp Hl].
  destruct l as [|q l].
  - simpl. now apply split_no_underscore.
  - change (Py.join "_" (p :: q :: l)) with (p +:+ "_" +:+ Py.join "_" (q :: l)).
    rewrite (split_segment _ _ Hp). f_equal. now apply IH.
Qed.

Lemma index_absent (x : string) (l : list string) :
  x ∉ l -> Py.index x l = Raise ValueError.
Proof.
  induction l as [|y l IH]; [reflexivity|]. intros Hx. simpl.
  destruct (String.eqb_spec y x) as [->|_].
  - destruct Hx. now constructor.
  - rewrite IH; [reflexivity|]. intros Hin. apply Hx. now constructor.
Qed.

Lemma digit_not_underscore (c : ascii) :
  Py.is_digit c = true -> Ascii.eqb c Py.underscore = false.
Proof.
  destruct c as [[] [] [] [] [] [] [] []]; vm_compute; intros Hc;
    try discriminate Hc; reflexivity.
Qed.

(** X1. A name written as location segments, a sheet segment, a year and
    anything after it gets the location segments and the year: the sheet
    and what follows the year play no part, so two such names that differ
    only there get the same short name. *)
Theorem extract_location_year_of_segments
    (location : list string) (sheet year : string) (tail : list string) :
  Forall (fun p => has_underscore p = false /\ Py.fullmatch_d4 p = false)
    (location ++ [sheet]) ->
  Py.fullmatch_d4 year = true ->
  Forall (fun p => has_underscore p = false) tail ->
  extract_location_year (Py.join "_" (location ++ sheet :: year :: tail))
  = Ok (Py.join "_" location +:+ "_" +:+ year).
Proof.
  intros Hloc Hyear Htail.
  assert (Hyear_u : has_underscore year = false).
  { destruct year as [|a [|b [|c [|d [|? ?]]]]]; try discriminate Hyear.
    simpl in Hyear.
    apply andb_prop in Hyear as [[[Ha Hb]%andb_prop Hc]%andb_prop Hd].
    simpl. now rewrite !digit_not_underscore. }
  assert (Hparts : Py.split Py.underscore
                     (Py.join "_" (location ++ sheet :: year :: tail))
                   = location ++ sheet :: year :: tail).
  { apply split_join; [now destruct location|].
    apply Forall_app. apply Forall_app in Hloc as [Hl Hs]. split.
    - eapply Forall_impl; [exact Hl|]. now intros p [Hp _].
    - apply Forall_cons. split.
      + apply Forall_cons in Hs as [[Hs _] _]. exact Hs.
      + now apply Forall_cons. }
  rewrite (year_at _ (S (length location)) year); rewrite ?Hparts.
  - replace (Z.of_nat (S (length location)) - 1) with (Z.of_nat (length location))
      by lia.
    rewrite slice_to_nonneg. now rewrite take_app_length.
  - rewrite (cons_middle sheet), app_assoc.
    rewrite lookup_app_r; rewrite length_app; simpl; [|lia].
    now replace (S (length location) - (length location + 1))%nat with 0%nat by lia.
  - exact Hyear.
  - intros j p Hj Hp.
    rewrite (cons_middle sheet), app_assoc in Hp.
    rewrite lookup_app_l in Hp by (rewrite length_app; simpl; lia).
    apply list_elem_of_lookup_2 in Hp.
    rewrite Forall_forall in Hloc. now destruct (Hloc p Hp).
Qed.

Lemma extract_location_year_of_segments_witness :
  extract_location_year (Py.join "_" (["Kenai"; "Peninsula"] ++ "B7" :: "1951" :: ["geo"; "v2"]))
  = Ok (Py.join "_" ["Kenai"; "Peninsula"] +:+ "_" +:+ "1951").
Proof.
  apply extract_location_year_of_segments.
  - repeat constructor.
  - reflexivity.
  - repeat constructor.
Defined.

(** X2. Without a segment of four digits the year is the word [unknown].
    The location is then [UnknownLoc] when no segment is that word; when
    one is, the first such segment is taken for the year's position and the
    location is cut before the segment that precedes it. *)
Theorem extract_location_year_no_year (raster_name : string) :
  let parts := Py.split Py.underscore raster_name in
  (forall p, p ∈ parts -> Py.fullmatch_d4 p = false) ->
  ("unknown" ∉ parts ->
   extract_location_year raster_name = Ok "UnknownLoc_unknown")
  /\ (forall i : nat,
        parts !! i = Some "unknown" ->
        (forall j, (j < i)%nat -> parts !! j ≠ Some "unknown") ->
        extract_location_year raster_name
        = Ok (Py.join "_" (Py.slice_to (Z.of_nat i - 1) parts) +:+ "_unknown")).
Proof.
  intros parts Hnone. unfold extract_location_year. fold parts.
  unfold Py.next_or. rewrite (find_none_all _ _ Hnone). simpl default. split.
  - intros Habsent. now rewrite (index_absent _ _ Habsent).
  - intros i Hi Hbefore. now rewrite (index_first_at parts i "unknown" Hi Hbefore).
Qed.

Lemma extract_location_year_no_year_witness :
  extract_location_year "Sitka_A12_topo" = Ok "UnknownLoc_unknown"
  /\ extract_location_year "Sitka_North_A12_unknown_topo"
     = Ok (Py.join "_" (Py.slice_to (Z.of_nat 3 - 1)
                          (Py.split Py.underscore "Sitka_North_A12_unknown_topo"))
           +:+ "_unknown").
Proof.
  split.
  - apply (extract_location_year_no_year "Sitka_A12_topo").
    + intros p Hp. vm_compute in Hp.
      repeat (apply elem_of_cons in Hp as [->|Hp]; [reflexivity|]).
      now apply elem_of_nil in Hp.
    + intros Hin. vm_compute in Hin.
      repeat (apply elem_of_cons in Hin as [Hin|Hin]; [discriminate|]).
      now apply elem_of_nil in Hin.
  - apply (extract_location_year_no_year "Sitka_North_A12_unknown_topo").
    + intros p Hp. vm_compute in Hp.
      repeat (apply elem_of_cons in Hp as [->|Hp]; [reflexivity|]).
      now apply elem_of_nil in Hp.
    + reflexivity.
    + intros j Hj. destruct j as [|[|[|j]]]; [| | |lia]; discriminate.
Defined.

(** ** Output names of the second tool *)

Lemma uint_no_underscore (d : Decimal.uint) :
  has_underscore (NilEmpty.string_of_uint d) = false.
Proof. induction d; simpl; assumption || reflexivity. Qed.

Lemma str_of_int_no_underscore (n : Z) : has_underscore (Py.str_of_int n) = false.
Proof.
  unfold Py.str_of_int, NilZero.string_of_int, NilZero.string_of_uint.
  destruct (Z.to_int n) as [d|d]; destruct d; simpl;
    try reflexivity; apply uint_no_underscore.
Qed.

(** X3. The name [raster_to_lake_name] returns ends in [_Lakes], and the
    function maps it to itself: applied twice it gives what it gives
    applied once. *)
Theorem raster_to_lake_name_idempotent (raster_name output_name : string) :
  raster_to_lake_name raster_name = Ok output_name ->
  endswith "_Lakes" output_name = true
  /\ raster_to_lake_name output_name = Ok output_name.
Proof.
  unfold raster_to_lake_name at 1.
  destruct (Py.getitem 0 (Py.rsplit1 Py.underscore raster_name)) as [base|e];
    simpl; [|discriminate].
  intros [= <-]. split.
  - apply endswith_app.
  - change (base +:+ "_Lakes") with (base +:+ "_" +:+ "Lakes").
    unfold raster_to_lake_name, Py.rsplit1.
    now rewrite (rpartition_last base "Lakes" eq_refl).
Qed.

Lemma raster_to_lake_name_idempotent_witness :
  endswith "_Lakes" "Sitka_North_1950_Lakes" = true
  /\ raster_to_lake_name "Sitka_North_1950_Lakes" = Ok "Sitka_North_1950_Lakes".
Proof.
  apply (raster_to_lake_name_idempotent "Sitka_North_1950_8class"). reflexivity.
Defined.

(** X4. The two tools' names fit: from the name the first tool gives a
    classified raster, whatever the short name and the number of classes,
    the second tool strips exactly the class-count tag and returns the
    short name followed by [_Lakes]. *)
Theorem lake_name_of_classified_raster (num_classes : Z) (short : string) :
  raster_to_lake_name (iso_output_name_of num_classes short)
  = Ok (short +:+ "_Lakes").
Proof.
  unfold iso_output_name_of, raster_to_lake_name, Py.rsplit1.
  rewrite (rpartition_last short (Py.str_of_int num_classes +:+ "class")).
  - reflexivity.
  - rewrite has_underscore_app, str_of_int_no_underscore. reflexivity.
Qed.

(** ** The first tool: what a run leaves behind *)

Lemma int_raises_ValueError (s : string) (e : exn) :
  Py.int s = Raise e -> e = ValueError.
Proof.
  unfold Py.int.
  destruct (match Py.lstrip_by Py.is_int_space s with
            | String "+"%char r => (false, r)
            | String "-"%char r => (true, r)
            | _ => (false, Py.lstrip_by Py.is_int_space s)
            end) as [neg s2].
  destruct (Py.digits (Py.rstrip_by Py.is_int_space s2) 0 false); congruence.
Qed.

Section IsoClassRun.
Context `{Backend}.
Variables (input_gdb cell_size : string).
Variables (num_classes min_size sample_interval : Z).
Variables (output_gdb csv_path : string).

Local Abbreviation body := (IsoClass_raster input_gdb cell_size num_classes min_size
                              sample_interval output_gdb csv_path).
Local Abbreviation loop := (IsoClass_loop input_gdb cell_size num_classes min_size
                              sample_interval output_gdb csv_path).
Local Abbreviation saved_path :=
  (fun raster => os_path_join output_gdb
                   (iso_output_name_of num_classes (short_name raster))).

(** A turn that returns has saved the classified raster, appended the
    record and reported the three messages; a turn that raises has not
    appended anything. In both cases no dataset has gone. *)
Lemma IsoClass_raster_run (idx total : nat) (raster : string) (w : world) :
  let out := body idx total raster w in
  datasets_stay w out.2
  /\ ((out.1 = Ok tt
       /\ files out.2
          = <[csv_path := default EmptyString (files w !! csv_path)
                          +:+ Csv.writerow [iso_output_name_of num_classes
                                              (short_name raster); EmptyString]]>
              (files w)
       /\ is_Some (rasters out.2 !! saved_path raster)
       /\ log out.2 = log w ++ IsoClass_messages cell_size num_classes idx total raster)
      \/ ((exists e, out.1 = Raise e) /\ files out.2 = files w)).
Proof.
  unfold IsoClass_raster, datasets_stay. rewrite extract_location_year_ok.
  run_script.
  destruct (rasters w !! os_path_join input_gdb raster) as [source|];
    [|split; [now intros p|right; eauto]].
  destruct (Resample source cell_size "NEAREST") as [resampled|e]; simpl;
    [|split; [now intros p|right; eauto]].
  rewrite lookup_insert_eq.
  destruct (IsoClusterUnsupervisedClassification resampled num_classes min_size
              sample_interval) as [iso|e]; simpl.
  - split.
    + intros p Hp. rewrite !lookup_insert.
      repeat case_decide; eauto.
    + left. split; [reflexivity|]. split; [reflexivity|]. split.
      * rewrite lookup_insert_eq. eauto.
      * rewrite <- !app_assoc. reflexivity.
  - split; [|right; eauto].
    intros p Hp. rewrite lookup_insert. case_decide; eauto.
Qed.

Lemma datasets_stay_trans (w1 w2 w3 : world) :
  datasets_stay w1 w2 -> datasets_stay w2 w3 -> datasets_stay w1 w3.
Proof. intros H12 H23 p Hp. apply H23, H12, Hp. Qed.

(** The loop, from a world where the table holds [old]. *)
Lemma IsoClass_loop_run (names : list string) (idx total : nat) (w : world)
    (old : string) :
  files w !! csv_path = Some old ->
  let out := loop idx total names w in
  exists k : nat,
    (k <= length names)%nat
    /\ (out.1 = Ok tt -> k = length names)
    /\ ((exists e, out.1 = Raise e) -> (k < length names)%nat)
    /\ files out.2 !! csv_path
       = Some (old +:+ rows_text (tracking_rows num_classes (take k names)))
    /\ (forall p, p ≠ csv_path -> files out.2 !! p = files w !! p)
    /\ datasets_stay w out.2
    /\ (forall raster, raster ∈ take k names ->
          is_Some (rasters out.2 !! saved_path raster))
    /\ (out.1 = Ok tt ->
        log out.2 = log w ++ IsoClass_log cell_size num_classes idx total names).
Proof.
  revert idx w old. induction names as [|raster rest IH]; intros idx w old Hold.
  - exists 0%nat. simpl. rewrite !app_empty_r, app_nil_r.
    repeat split; auto.
    + intros [e He]. discriminate.
    + now intros p.
    + intros raster Hin. now apply elem_of_nil in Hin.
  - simpl.
    destruct (IsoClass_raster_run idx total raster w)
      as [Hstay [(Hok & Hf & Hsaved & Hlog)|[[e He] Hf]]];
      destruct (body idx total raster w) as [[[]|e'] w1] eqn:Hbody;
      simpl in Hok || simpl in He; try discriminate; simpl in Hf, Hstay.
    + rewrite (script_bind_ok _ _ _ _ _ Hbody).
      rewrite Hold in Hf. simpl in Hf, Hsaved, Hlog.
      destruct (IH (S idx) w1 (old +:+ Csv.writerow
                   [iso_output_name_of num_classes (short_name raster); EmptyString]))
        as (k & Hk & Hdone & Hfail & Hcsv & Hother & Hstay' & Hall & Hlog').
      { rewrite Hf. apply lookup_insert_eq. }
      exists (S k). split; [simpl; lia|].
      split; [intros Hr; simpl; f_equal; now apply Hdone|].
      split; [intros Hr; simpl; apply Hfail in Hr; lia|].
      split; [rewrite Hcsv; simpl; now rewrite app_assoc'|].
      split; [intros p Hp; rewrite (Hother p Hp), Hf; now apply lookup_insert_ne|].
      split; [now apply (datasets_stay_trans _ w1)|].
      split.
      * intros r [->|Hin]%elem_of_cons; [now apply Hstay'|now apply Hall].
      * intros Hr. rewrite (Hlog' Hr), Hlog. now rewrite <- app_assoc.
    + rewrite (script_bind_raise _ _ _ _ _ Hbody). simpl.
      exists 0%nat. split; [lia|]. split; [discriminate|].
      split; [intros _; lia|].
      split; [rewrite Hf, Hold; simpl; now rewrite app_empty_r|].
      split; [intros p _; now rewrite Hf|].
      split; [exact Hstay|].
      split; [intros r Hin; now apply elem_of_nil in Hin|discriminate].
Qed.

End IsoClassRun.

Section IsoClassFurther.
Context `{Backend}.
Variable GetParameterAsText : nat -> string.
Variable ListRasters : list string.

Local Abbreviation csv_path := (csv_path_of GetParameterAsText).
Local Abbreviation header := (Csv.writerow ["classified_raster"; "water_class"]).
Local Abbreviation run := (IsoClass GetParameterAsText ListRasters).

(** A run whose parameters parse, seen from the world it starts in. *)
Lemma IsoClass_run (n2 n3 n4 : Z) (w : world) :
  Py.int (GetParameterAsText 2%nat) = Ok n2 ->
  Py.int (GetParameterAsText 3%nat) = Ok n3 ->
  Py.int (GetParameterAsText 4%nat) = Ok n4 ->
  exists k : nat,
    (k <= length ListRasters)%nat
    /\ ((run w).1 = Ok tt -> k = length ListRasters)
    /\ ((exists e, (run w).1 = Raise e) -> (k < length ListRasters)%nat)
    /\ files (run w).2 !! csv_path
       = Some (default header (files w !! csv_path)
               +:+ rows_text (tracking_rows n2 (take k ListRasters)))
    /\ (forall p, p ≠ csv_path -> files (run w).2 !! p = files w !! p)
    /\ datasets_stay w (run w).2
    /\ (forall raster, raster ∈ take k ListRasters ->
          is_Some (rasters (run w).2
                   !! os_path_join (GetParameterAsText 5%nat)
                        (iso_output_name_of n2 (short_name raster))))
    /\ ((run w).1 = Ok tt ->
        log (run w).2
        = log w ++ IsoClass_log (GetParameterAsText 1%nat) n2 1
                     (length ListRasters) ListRasters).
Proof.
  intros H2 H3 H4. rewrite (IsoClass_parsed _ _ n2 n3 n4 w H2 H3 H4).
  match goal with
  | |- context [IsoClass_loop _ _ _ _ _ _ _ _ _ _ ?w0] =>
      assert (Hw0 : files w0 !! csv_path = Some (default header (files w !! csv_path))
                    /\ (forall p, p ≠ csv_path -> files w0 !! p = files w !! p)
                    /\ rasters w0 = rasters w /\ log w0 = log w);
      [|destruct Hw0 as (Hcsv0 & Hother0 & Hrasters0 & Hlog0);
        destruct (IsoClass_loop_run (GetParameterAsText 0%nat)
                    (GetParameterAsText 1%nat) n2 n3 n4 (GetParameterAsText 5%nat)
                    csv_path ListRasters 1 (length ListRasters) w0 _ Hcsv0)
          as (k & Hk & Hdone & Hfail & Hcsv & Hother & Hstay & Hsaved & Hlog)]
  end.
  { destruct (files w !! csv_path) as [old|] eqn:Hold; simpl.
    - auto.
    - split; [apply lookup_insert_eq|].
      split; [intros p Hp; now apply lookup_insert_ne|auto]. }
  exists k. repeat split; try assumption.
  - intros p Hp. now rewrite (Hother p Hp), (Hother0 p Hp).
  - intros p Hp. apply Hstay. now rewrite Hrasters0.
  - intros Hr. now rewrite (Hlog Hr), Hlog0.
Qed.


(** X6. A class count, minimum class size or sampling interval that is
    not an integer makes the tool raise [ValueError] before it does
    anything: no table is created, no message written, no dataset
    touched. *)
Theorem IsoClass_bad_parameter (w : world) :
  (exists e, Py.int (GetParameterAsText 2%nat) = Raise e)
  \/ (exists e, Py.int (GetParameterAsText 3%nat) = Raise e)
  \/ (exists e, Py.int (GetParameterAsText 4%nat) = Raise e) ->
  run w = (Raise ValueError, w).
Proof.
  unfold IsoClass. run_script.
  destruct (Py.int (GetParameterAsText 2%nat)) as [n2|e2] eqn:H2; simpl;
    [|now rewrite (int_raises_ValueError _ _ H2)].
  destruct (Py.int (GetParameterAsText 3%nat)) as [n3|e3] eqn:H3; simpl;
    [|now rewrite (int_raises_ValueError _ _ H3)].
  destruct (Py.int (GetParameterAsText 4%nat)) as [n4|e4] eqn:H4; simpl;
    [|now rewrite (int_raises_ValueError _ _ H4)].
  intros [[e He]|[[e He]|[e He]]]; discriminate.
Qed.

(** X7. Whatever the parameters, the rasters and the outcome, a run
    changes no file other than the tracking table. *)
Theorem IsoClass_other_files (w : world) (p : string) :
  p ≠ csv_path -> files (run w).2 !! p = files w !! p.
Proof.
  intros Hp.
  destruct (parse_cases GetParameterAsText) as [(n2 & n3 & n4 & H2 & H3 & H4)|Hbad].
  - destruct (IsoClass_run n2 n3 n4 w H2 H3 H4) as (k & _ & _ & _ & _ & Hother & _).
    now apply Hother.
  - destruct (IsoClass_unparsed GetParameterAsText ListRasters w Hbad) as [e He].
    now rewrite He.
Qed.


(** X9. The tool does not look for records that are already there: two
    runs in a row that get through the same list leave every record
    twice in the table. *)
Theorem IsoClass_rerun_duplicates (w : world) :
  files w !! csv_path = None ->
  (run w).1 = Ok tt ->
  (run (run w).2).1 = Ok tt ->
  exists num_classes : Z,
    Py.int (GetParameterAsText 2%nat) = Ok num_classes
    /\ files (run (run w).2).2 !! csv_path
       = Some (header
               +:+ rows_text (tracking_rows num_classes ListRasters
                              ++ tracking_rows num_classes ListRasters)).
Proof.
  intros Hnone Hrun1 Hrun2.
  destruct (parse_cases GetParameterAsText) as [(n2 & n3 & n4 & H2 & H3 & H4)|Hbad].
  - exists n2. split; [exact H2|].
    destruct (IsoClass_run n2 n3 n4 w H2 H3 H4) as (k1 & _ & Hk1 & _ & Hcsv1 & _).
    destruct (IsoClass_run n2 n3 n4 (run w).2 H2 H3 H4)
      as (k2 & _ & Hk2 & _ & Hcsv2 & _).
    rewrite Hcsv2, Hcsv1, Hnone, (Hk1 Hrun1), (Hk2 Hrun2), !firstn_all. simpl.
    now rewrite rows_text_app, app_assoc'.
  - destruct (IsoClass_unparsed GetParameterAsText ListRasters w Hbad) as [e He].
    rewrite He in Hrun1. discriminate.
Qed.

(** X10. A run that gets through the list reports, for each raster in
    turn, its progress message numbered from 1 out of the length of the
    list, then the resampling and the saving messages, and nothing else. *)
Theorem IsoClass_log_complete (w : world) :
  (run w).1 = Ok tt ->
  exists num_classes : Z,
    Py.int (GetParameterAsText 2%nat) = Ok num_classes
    /\ log (run w).2
       = log w ++ IsoClass_log (GetParameterAsText 1%nat) num_classes 1
                    (length ListRasters) ListRasters.
Proof.
  intros Hrun.
  destruct (parse_cases GetParameterAsText) as [(n2 & n3 & n4 & H2 & H3 & H4)|Hbad].
  - exists n2. split; [exact H2|].
    destruct (IsoClass_run n2 n3 n4 w H2 H3 H4) as (k & _ & _ & _ & _ & _ & _ & _ & Hlog).
    now apply Hlog.
  - destruct (IsoClass_unparsed GetParameterAsText ListRasters w Hbad) as [e He].
    rewrite He in Hrun. discriminate.
Qed.

End IsoClassFurther.

(** ** Steps that return: what they read and the world they leave *)

Section Inversion.
Context `{Backend}.

Lemma script_bind_inv {A B} (m : script A) (f : A -> script B)
    (w w' : world) (b : B) :
  (m ≫= f) w = (Ok b, w') ->
  exists (a : A) (w1 : world), m w = (Ok a, w1) /\ f a w1 = (Ok b, w').
Proof.
  unfold mbind, script_bind.
  destruct (m w) as [[a|e] w1]; [eauto|discriminate].
Qed.

Lemma lift_inv {A} (r : result A) (w w' : world) (a : A) :
  lift r w = (Ok a, w') -> r = Ok a /\ w' = w.
Proof. unfold lift. now intros [= -> ->]. Qed.

Lemma read_raster_inv (path : string) (w w' : world) (r : Raster) :
  read_raster path w = (Ok r, w') -> rasters w !! path = Some r /\ w' = w.
Proof.
  unfold read_raster. destruct (rasters w !! path); [|discriminate].
  now intros [= -> ->].
Qed.

Lemma read_features_inv (path : string) (w w' : world) (fs : list Feature) :
  read_features path w = (Ok fs, w') ->
  feature_classes w !! path = Some fs /\ w' = w.
Proof.
  unfold read_features. destruct (feature_classes w !! path); [|discriminate].
  now intros [= -> ->].
Qed.

Lemma read_layer_inv (name : string) (w w' : world) (fs : list Feature) :
  read_layer name w = (Ok fs, w') -> layers w !! name = Some fs /\ w' = w.
Proof.
  unfold read_layer. destruct (layers w !! name); [|discriminate].
  now intros [= -> ->].
Qed.

Lemma save_features_inv (path : string) (fs : list Feature) (w w' : world) (u : unit) :
  save_features path fs w = (Ok u, w') ->
  w' = set_feature_classes (<[path := fs]> (feature_classes w)) w.
Proof. unfold save_features. now intros [= <-]. Qed.

Lemma save_layer_inv (name : string) (fs : list Feature) (w w' : world) (u : unit) :
  save_layer name fs w = (Ok u, w') ->
  w' = set_layers (<[name := fs]> (layers w)) w.
Proof. unfold save_layer. now intros [= <-]. Qed.

Lemma emit_inv (e : event) (w w' : world) (u : unit) :
  emit e w = (Ok u, w') ->
  w' = {| files := files w; rasters := rasters w;
          feature_classes := feature_classes w; layers := layers w;
          log := log w ++ [e] |}.
Proof. unfold emit. now intros [= <-]. Qed.

End Inversion.

(** Takes a run that returned apart, step by step. *)
Ltac invert_step H :=
  first
    [ apply lift_inv in H as [H ->]
    | apply read_raster_inv in H as [H ->]
    | apply read_features_inv in H as [H ->]
    | apply read_layer_inv in H as [H ->]
    | apply save_features_inv in H as ->
    | apply save_layer_inv in H as ->
    | apply emit_inv in H as -> ].

Ltac invert_run H :=
  lazymatch type of H with
  | (_ ≫= _) _ = (Ok _, _) =>
      let a := fresh "a" in
      let w := fresh "w" in
      let Hstep := fresh "Hstep" in
      apply script_bind_inv in H as (a & w & Hstep & H);
      invert_run Hstep; invert_run H
  | _ => invert_step H
  end.

Section LakePolygons.
Context `{Backend}.
Variables (input_gdb coastline : string).
Variable (area_threshold : float).
Variable (output_gdb : string).

Local Abbreviation process :=
  (lake_polygons input_gdb coastline area_threshold output_gdb).

(** Steps 1 to 8 when they all return. *)
Lemma lake_polygons_ok (idx total : nat) (raster_name : string) (n : Z)
    (output_name : string) (w w' : world) :
  process idx total raster_name n output_name w = (Ok tt, w') ->
  exists kept : list Feature,
    feature_classes w' !! final_output_of output_gdb output_name = Some kept
    /\ (forall f, f ∈ kept ->
          poly_area f = Some (area_geodesic (shape f))
          /\ PrimFloat.ltb area_threshold (area_geodesic (shape f)) = true)
    /\ log w'
       = log w ++ [Message ("Processing " +:+ Py.str_of_nat idx +:+ " of "
                            +:+ Py.str_of_nat total +:+ ": " +:+ raster_name);
                   Message ("--> Saved: " +:+ output_name)]
    /\ files w' = files w
    /\ rasters w' = rasters w.
Proof.
  unfold lake_polygons, area_filter, save_output, AddMessage. intros Hrun.
  invert_run Hrun. simpl in *.
  repeat match goal with
         | Hl : <[?k := _]> _ !! ?k = Some _ |- _ =>
             rewrite lookup_insert_eq in Hl; injection Hl as <-
         end.
  eexists. split; [apply lookup_insert_eq|]. split; [|split; [|split]].
  - intros f [Hclause (f1 & -> & Hf1)%list_elem_of_fmap]%list_elem_of_filter.
    unfold area_clause in Hclause. simpl in *. split; [reflexivity|exact Hclause].
  - now rewrite <- app_assoc.
  - reflexivity.
  - reflexivity.
Qed.

End LakePolygons.

(** ** The second tool: what a run leaves behind *)

Section Keeps.
Context `{Backend}.
Variable R : relation world.
Hypothesis R_refl : forall w, R w w.
Hypothesis R_trans : forall w1 w2 w3, R w1 w2 -> R w2 w3 -> R w1 w3.

Lemma keeps_bind {A B} (m : script A) (f : A -> script B) :
  keeps R m -> (forall a, keeps R (f a)) -> keeps R (m ≫= f).
Proof.
  intros Hm Hf w. specialize (Hm w).
  destruct (m w) as [[a|e] w1] eqn:Hmw; simpl in Hm.
  - rewrite (script_bind_ok _ _ _ _ _ Hmw). eapply R_trans; [exact Hm|apply Hf].
  - now rewrite (script_bind_raise _ _ _ _ _ Hmw).
Qed.

Lemma keeps_ret {A} (a : A) : keeps R (mret a : script A).
Proof. intros w. apply R_refl. Qed.

Lemma keeps_lift {A} (r : result A) : keeps R (lift r).
Proof. intros w. apply R_refl. Qed.

Lemma keeps_read_raster (path : string) : keeps R (read_raster path).
Proof. intros w. unfold read_raster. destruct (rasters w !! path); apply R_refl. Qed.

Lemma keeps_read_features (path : string) : keeps R (read_features path).
Proof.
  intros w. unfold read_features. destruct (feature_classes w !! path); apply R_refl.
Qed.

Lemma keeps_read_layer (name : string) : keeps R (read_layer name).
Proof. intros w. unfold read_layer. destruct (layers w !! name); apply R_refl. Qed.

End Keeps.

Section CreateLakePolygonsFurther.
Context `{Backend}.
Variables (input_gdb coastline : string).
Variable (area_threshold : float).
Variable (output_gdb : string).

Local Abbreviation process :=
  (lake_polygons input_gdb coastline area_threshold output_gdb).
Local Abbreviation body :=
  (CreateLakePolygons_row input_gdb coastline area_threshold output_gdb).
Local Abbreviation loop :=
  (CreateLakePolygons_loop input_gdb coastline area_threshold output_gdb).
Local Abbreviation run :=
  (CreateLakePolygons input_gdb coastline area_threshold output_gdb).

Lemma same_inputs_refl (w : world) : same_inputs w w.
Proof. now split. Qed.

Lemma same_inputs_trans (w1 w2 w3 : world) :
  same_inputs w1 w2 -> same_inputs w2 w3 -> same_inputs w1 w3.
Proof. intros [Hf Hr] [Hf' Hr']. split; congruence. Qed.

Lemma keeps_inputs_emit (e : event) : keeps same_inputs (emit e).
Proof. intros w. now split. Qed.

Lemma keeps_inputs_save_features (path : string) (fs : list Feature) :
  keeps same_inputs (save_features path fs).
Proof. intros w. now split. Qed.

Lemma keeps_inputs_save_layer (name : string) (fs : list Feature) :
  keeps same_inputs (save_layer name fs).
Proof. intros w. now split. Qed.

Ltac keeps_inputs :=
  repeat (apply (keeps_bind same_inputs same_inputs_trans); [|intros ?]);
  unfold AddMessage, AddWarning;
  first [ apply keeps_inputs_emit | apply keeps_inputs_save_features
        | apply keeps_inputs_save_layer
        | apply (keeps_lift same_inputs same_inputs_refl)
        | apply (keeps_ret same_inputs same_inputs_refl)
        | apply (keeps_read_raster same_inputs same_inputs_refl)
        | apply (keeps_read_features same_inputs same_inputs_refl)
        | apply (keeps_read_layer same_inputs same_inputs_refl) ].

Lemma keeps_inputs_row (idx total : nat) (r : row) :
  keeps same_inputs (body idx total r).
Proof.
  unfold CreateLakePolygons_row.
  destruct (String.eqb (Py.strip (water_class r)) EmptyString).
  - apply keeps_inputs_emit.
  - unfold lake_polygons, area_filter, save_output. keeps_inputs.
Qed.

Lemma keeps_inputs_loop (reader : list row) (idx total : nat) :
  keeps same_inputs (loop idx total reader).
Proof.
  revert idx. induction reader as [|r rest IH]; intros idx; simpl.
  - apply (keeps_ret same_inputs same_inputs_refl).
  - apply (keeps_bind same_inputs same_inputs_trans);
      [apply keeps_inputs_row|intros _; apply IH].
Qed.

(** X11. Whatever the table and the outcome, the second tool writes no
    text file and no raster dataset: the tracking table and the
    classified rasters are after a run what they were before it. *)
Theorem CreateLakePolygons_keeps_inputs (reader : list row) (w : world) :
  files (run reader w).2 = files w /\ rasters (run reader w).2 = rasters w.
Proof. apply (keeps_inputs_loop reader 1 (length reader) w). Qed.

(** X12. A record whose [water_class] is neither blank nor an integer
    stops the run: [int] raises [ValueError] at that record, before any
    message or dataset of it, and the records after it are not looked
    at. *)
Theorem CreateLakePolygons_bad_water_class
    (idx total : nat) (r : row) (rest : list row) (w : world) :
  blank (water_class r) = false ->
  (exists e, Py.int (water_class r) = Raise e) ->
  loop idx total (r :: rest) w = (Raise ValueError, w).
Proof.
  intros Hb [e He]. simpl.
  apply script_bind_raise. rewrite (row_not_blank _ _ _ _ idx total r w Hb).
  run_script. rewrite He. simpl. now rewrite (int_raises_ValueError _ _ He).
Qed.

(** The world after the warnings of a list of skipped records. *)
Lemma loop_all_blank (reader : list row) (idx total : nat) (w : world) :
  Forall (fun r => blank (water_class r) = true) reader ->
  loop idx total reader w
  = (Ok tt,
     {| files := files w; rasters := rasters w;
        feature_classes := feature_classes w; layers := layers w;
        log := log w ++ ((fun r => Warning (skip_warning (classified_raster r)))
                         <$> reader) |}).
Proof.
  revert idx w. induction reader as [|r rest IH]; intros idx w Hall.
  - simpl. rewrite app_nil_r. now destruct w.
  - apply Forall_cons in Hall as [Hr Hrest]. simpl.
    rewrite (script_bind_ok _ _ _ _ _ (row_blank _ _ _ _ idx total r w Hr)).
    rewrite (IH (S idx) _ Hrest). simpl. now rewrite <- app_assoc.
Qed.

(** X13. On a table all of whose records have a blank [water_class], as
    the first tool leaves it, a run returns having done nothing but warn:
    one warning per record, in the order of the table, and no dataset,
    layer or file is written. *)
Theorem CreateLakePolygons_all_blank (reader : list row) (w : world) :
  Forall (fun r => blank (water_class r) = true) reader ->
  run reader w
  = (Ok tt,
     {| files := files w; rasters := rasters w;
        feature_classes := feature_classes w; layers := layers w;
        log := log w ++ ((fun r => Warning (skip_warning (classified_raster r)))
                         <$> reader) |}).
Proof. intros Hall. now apply loop_all_blank. Qed.

(** X14. When steps 1 to 8 return for a record, the output feature class
    of the record exists, and every feature in it has its [poly_area]
    set to the geodesic area of its shape, a value strictly greater than
    the threshold. *)
Theorem lake_polygons_output (idx total : nat) (raster_name : string) (n : Z)
    (output_name : string) (w w' : world) :
  process idx total raster_name n output_name w = (Ok tt, w') ->
  exists kept : list Feature,
    feature_classes w' !! final_output_of output_gdb output_name = Some kept
    /\ (forall f, f ∈ kept ->
          poly_area f = Some (area_geodesic (shape f))
          /\ PrimFloat.ltb area_threshold (area_geodesic (shape f)) = true).
Proof.
  intros Hrun.
  destruct (lake_polygons_ok _ _ _ _ _ _ _ _ _ _ _ Hrun) as (kept & Hout & Hall & _).
  eauto.
Qed.

(** A turn of the loop that returns has reported the warning of a blank
    record, or the two messages of a record it went through. *)
Lemma row_log (idx total : nat) (r : row) (w w' : world) :
  body idx total r w = (Ok tt, w') ->
  log w' = log w ++ CreateLakePolygons_log idx total [r].
Proof.
  simpl. rewrite app_nil_r. intros Hrow.
  destruct (blank (water_class r)) eqn:Hb.
  - rewrite (row_blank _ _ _ _ idx total r w Hb) in Hrow. now injection Hrow as <-.
  - rewrite (row_not_blank _ _ _ _ idx total r w Hb) in Hrow.
    apply script_bind_inv in Hrow as (n & w1 & [_ ->]%lift_inv & Hrow).
    apply script_bind_inv in Hrow as (o & w2 & [Ho ->]%lift_inv & Hrow).
    destruct (lake_polygons_ok _ _ _ _ _ _ _ _ _ _ _ Hrow) as (_ & _ & _ & Hlog & _).
    rewrite Hlog, Ho. reflexivity.
Qed.

Lemma loop_log (reader : list row) (idx total : nat) (w w' : world) :
  loop idx total reader w = (Ok tt, w') ->
  log w' = log w ++ CreateLakePolygons_log idx total reader.
Proof.
  revert idx w. induction reader as [|r rest IH]; intros idx w Hrun.
  - injection Hrun as <-. simpl. now rewrite app_nil_r.
  - simpl in Hrun. apply script_bind_inv in Hrun as ([] & w1 & Hrow & Hrun).
    rewrite (IH _ _ Hrun), (row_log _ _ _ _ _ Hrow). simpl.
    now rewrite app_nil_r, <- app_assoc.
Qed.

(** X16. No record goes by in silence: a run that returns has reported,
    for each record in the order of the table, either the warning that
    the record was skipped or its progress message, numbered by the
    record's place in the table, followed by the message that its
    output was saved. *)
Theorem CreateLakePolygons_log_complete (reader : list row) (w w' : world) :
  run reader w = (Ok tt, w') ->
  log w' = log w ++ CreateLakePolygons_log 1 (length reader) reader.
Proof. apply loop_log. Qed.

End CreateLakePolygonsFurther.

Lemma CreateLakePolygons_bad_water_class_witness :
  CreateLakePolygons_loop (H := Toy.backend) "in.gdb" "coast" 200%float "out.gdb"
    1 2 [{| classified_raster := "Sitka_1950_6class"; water_class := "water" |};
         {| classified_raster := "Kenai_1951_6class"; water_class := "2" |}]
    Toy.classified
  = (Raise ValueError, Toy.classified).
Proof.
  apply (@CreateLakePolygons_bad_water_class Toy.backend).
  - reflexivity.
  - exists ValueError. reflexivity.
Defined.

Lemma CreateLakePolygons_all_blank_witness :
  (CreateLakePolygons (H := Toy.backend) "in.gdb" "coast" 200%float "out.gdb"
     [{| classified_raster := "Sitka_1950_6class"; water_class := EmptyString |};
      {| classified_raster := "Kenai_1951_6class"; water_class := " " |}]
     Toy.classified).1
  = Ok tt.
Proof.
  rewrite (@CreateLakePolygons_all_blank Toy.backend); [reflexivity|].
  repeat constructor.
Defined.


Lemma IsoClass_bad_parameter_witness :
  let parameters := fun i => if Nat.eqb i 2 then "six" else Toy.parameters i in
  IsoClass (H := Toy.backend) parameters ["Sitka_A12_1950_topo"] Toy.fresh
  = (Raise ValueError, Toy.fresh).
Proof.
  intros parameters.
  apply (@IsoClass_bad_parameter Toy.backend parameters).
  left. exists ValueError. reflexivity.
Defined.

Lemma IsoClass_other_files_witness :
  files (IsoClass (H := Toy.backend) Toy.parameters ["Sitka_A12_1950_topo"]
           Toy.annotated).2 !! "project/notes.txt"
  = files Toy.annotated !! "project/notes.txt".
Proof.
  apply (@IsoClass_other_files Toy.backend Toy.parameters). discriminate.
Defined.


Lemma IsoClass_rerun_duplicates_witness :
  exists num_classes : Z,
    Py.int "6" = Ok num_classes
    /\ files (IsoClass (H := Toy.backend) Toy.parameters ["Sitka_A12_1950_topo"]
                (IsoClass (H := Toy.backend) Toy.parameters ["Sitka_A12_1950_topo"]
                   Toy.fresh).2).2
       !! "project/classified_rasters.csv"
       = Some (Csv.writerow ["classified_raster"; "water_class"]
               +:+ rows_text (tracking_rows num_classes ["Sitka_A12_1950_topo"]
                              ++ tracking_rows num_classes ["Sitka_A12_1950_topo"])).
Proof.
  apply (@IsoClass_rerun_duplicates Toy.backend Toy.parameters
           ["Sitka_A12_1950_topo"] Toy.fresh); vm_compute; reflexivity.
Defined.

Lemma IsoClass_log_complete_witness :
  exists num_classes : Z,
    Py.int "6" = Ok num_classes
    /\ log (IsoClass (H := Toy.backend) Toy.parameters
              ["Sitka_A12_1950_topo"; "Kenai_B7_1951_geo"]
              (set_rasters (H := Toy.backend)
                 (<["in.gdb/Kenai_B7_1951_geo" := [4; 4; 1]]> (rasters Toy.fresh))
                 Toy.fresh)).2
       = [] ++ IsoClass_log "10" num_classes 1 2
                 ["Sitka_A12_1950_topo"; "Kenai_B7_1951_geo"].
Proof.
  apply (@IsoClass_log_complete Toy.backend Toy.parameters
           ["Sitka_A12_1950_topo"; "Kenai_B7_1951_geo"]).
  vm_compute. reflexivity.
Defined.

Lemma lake_polygons_output_witness :
  let out := lake_polygons (H := Toy.backend) "in.gdb" "coast" 200%float "out.gdb"
               1 1 "Sitka_1950_6class" 2 "Sitka_1950_Lakes" Toy.classified in
  exists kept : list (@Feature Toy.backend),
    feature_classes out.2 !! "out.gdb/Sitka_1950_Lakes" = Some kept
    /\ (forall f, f ∈ kept ->
          poly_area f = Some (shape f : float)
          /\ PrimFloat.ltb 200%float (shape f : float) = true).
Proof.
  intros out.
  apply (@lake_polygons_output Toy.backend "in.gdb" "coast" 200%float "out.gdb"
           1 1 "Sitka_1950_6class" 2 "Sitka_1950_Lakes" Toy.classified out.2).
  vm_compute. reflexivity.
Defined.

Lemma CreateLakePolygons_log_complete_witness :
  let out := CreateLakePolygons (H := Toy.backend) "in.gdb" "coast" 200%float
               "out.gdb" Toy.table Toy.classified in
  log out.2 = log Toy.classified ++ CreateLakePolygons_log 1 2 Toy.table.
Proof.
  intros out.
  apply (@CreateLakePolygons_log_complete Toy.backend "in.gdb" "coast" 200%float
           "out.gdb" Toy.table Toy.classified out.2).
  vm_compute. reflexivity.
Defined.

(** ** What a turn of each loop computes *)


Section Turns.
Context `{Backend}.

Lemma save_raster_inv (path : string) (r : Raster) (w w' : world) (u : unit) :
  save_raster path r w = (Ok u, w') ->
  w' = set_rasters (<[path := r]> (rasters w)) w.
Proof. unfold save_raster. now intros [= <-]. Qed.

Lemma append_row_inv (path : string) (fields : list string) (w w' : world) (u : unit) :
  append_row path fields w = (Ok u, w') ->
  w' = set_files (<[path := default EmptyString (files w !! path)
                            +:+ Csv.writerow fields]> (files w)) w.
Proof. unfold append_row. now intros [= <-]. Qed.


(** X15. A turn of the first tool's loop that returns has read the raster
    from the input geodatabase, resampled it to the cell size with
    nearest-neighbour resampling, classified the resampled raster with
    the number of classes, the minimum class size and the sampling
    interval given, and the output geodatabase holds the result under the
    short name with the class-count tag. *)
Theorem IsoClass_raster_output
    (input_gdb cell_size : string) (num_classes min_size sample_interval : Z)
    (output_gdb csv_path : string) (idx total : nat) (raster : string)
    (w w' : world) :
  IsoClass_raster input_gdb cell_size num_classes min_size sample_interval
    output_gdb csv_path idx total raster w = (Ok tt, w') ->
  exists source resampled iso_result : Raster,
    rasters w !! os_path_join input_gdb raster = Some source
    /\ Resample source cell_size "NEAREST" = Ok resampled
    /\ IsoClusterUnsupervisedClassification resampled num_classes min_size
         sample_interval = Ok iso_result
    /\ rasters w' !! os_path_join output_gdb
                       (iso_output_name_of num_classes (short_name raster))
       = Some iso_result.
Proof.
  unfold IsoClass_raster, AddMessage. rewrite extract_location_year_ok.
  intros Hrun.
  apply script_bind_inv in Hrun as (short & w0 & [[= <-] ->]%lift_inv & Hrun).
  apply script_bind_inv in Hrun as ([] & w1 & ->%emit_inv & Hrun).
  apply script_bind_inv in Hrun as (source & w2 & [Hsource ->]%read_raster_inv & Hrun).
  apply script_bind_inv in Hrun as (resampled & w3 & [Hres ->]%lift_inv & Hrun).
  apply script_bind_inv in Hrun as ([] & w4 & ->%save_raster_inv & Hrun).
  apply script_bind_inv in Hrun as ([] & w5 & ->%emit_inv & Hrun).
  apply script_bind_inv in Hrun as (again & w6 & [Hagain ->]%read_raster_inv & Hrun).
  apply script_bind_inv in Hrun as (iso & w7 & [Hiso ->]%lift_inv & Hrun).
  apply script_bind_inv in Hrun as ([] & w8 & ->%save_raster_inv & Hrun).
  apply script_bind_inv in Hrun as ([] & w9 & ->%append_row_inv & Hrun).
  apply emit_inv in Hrun as ->. simpl in *.
  rewrite lookup_insert_eq in Hagain. injection Hagain as <-.
  exists source, resampled, iso. repeat split; try assumption.
  apply lookup_insert_eq.
Qed.


End Turns.

Lemma IsoClass_raster_output_witness :
  let w' := (IsoClass_raster (H := Toy.backend) "in.gdb" "10" 6 20 10 "out.gdb"
               "project/classified_rasters.csv" 1 1 "Sitka_A12_1950_topo"
               Toy.fresh).2 in
  exists source resampled iso_result : @Raster Toy.backend,
    rasters Toy.fresh !! "in.gdb/Sitka_A12_1950_topo" = Some source
    /\ Ok source = Ok resampled
    /\ Ok resampled = Ok iso_result
    /\ rasters w' !! ("out.gdb/" +:+ iso_output_name_of 6
                                       (short_name "Sitka_A12_1950_topo"))
       = Some iso_result.
Proof.
  intros w'.
  apply (IsoClass_raster_output (H := Toy.backend) "in.gdb" "10" 6 20 10 "out.gdb"
           "project/classified_rasters.csv" 1 1 "Sitka_A12_1950_topo" Toy.fresh w').
  vm_compute. reflexivity.
Defined.

